(** * Wavefront Django middleware: request-lifecycle metrics

    A shallow embedding of [wavefront_django_sdk_python/application_tags.py]
    and [wavefront_django_sdk_python/middleware.py], and the properties of
    the request instrumentation proved over it.

    Conventions of the embedding.
    - A Python [str] object is a [pystr]: its text together with the identity
      of the object, because the middleware compares with [is].
    - [None] is [None]; Python truthiness of an optional string is [truthy].
    - A tag dictionary is a [gmap string string].
    - The registry of [wavefront_pyformance], the tracing object of
      [django_opentracing] and Django's [resolve] are external collaborators:
      every call the hooks make on the registry or on the tracer is recorded,
      in program order, as a [call]; [run_calls] replays the registry calls
      on a registry state.
    - A hook that raises returns [Raise] with the calls it made before. *)

From Stdlib Require Import ZArith String Ascii List Bool Lia.
From Stdlib Require Import DecimalString DecimalZ DecimalPos.
From stdpp Require Import base gmap strings.

Open Scope string_scope.
Open Scope Z_scope.

(** ** Python strings *)

Module Py.

(** A [str] object: identity and text. *)
Record pystr := PyStr { str_id : nat; str_val : string }.

(** [bool(s)] for a string. *)
Definition truthy_string (s : string) : bool :=
  match s with
  | EmptyString => false
  | String _ _ => true
  end.

(** [bool(x)] for a value that is a string or [None]. *)
Definition truthy (x : option pystr) : bool :=
  match x with
  | Some s => truthy_string (str_val s)
  | None => false
  end.

Definition truthy_text (x : option string) : bool :=
  match x with
  | Some s => truthy_string s
  | None => false
  end.

(** [x or d], for an optional string [x] and a string [d]. *)
Definition or_else (x : option pystr) (d : pystr) : pystr :=
  match x with
  | Some s => if truthy_string (str_val s) then s else d
  | None => d
  end.

(** [a is b]: the two names denote one object. *)
Definition is_ (a b : pystr) : bool := Nat.eqb (str_id a) (str_id b).

(** [s.replace(old, new)] for one-character [old] and [new]. *)
Fixpoint replace (old new : ascii) (s : string) : string :=
  match s with
  | EmptyString => EmptyString
  | String c s' =>
      String (if Ascii.eqb c old then new else c) (replace old new s')
  end.

(** Membership of a character in the [chars] argument of a strip. *)
Fixpoint in_chars (c : ascii) (chars : string) : bool :=
  match chars with
  | EmptyString => false
  | String d chars' => Ascii.eqb c d || in_chars c chars'
  end.

(** [s.lstrip(chars)]. *)
Fixpoint lstrip (chars : string) (s : string) : string :=
  match s with
  | EmptyString => EmptyString
  | String c s' => if in_chars c chars then lstrip chars s' else s
  end.

(** [s.rstrip(chars)]. *)
Fixpoint rstrip (chars : string) (s : string) : string :=
  match s with
  | EmptyString => EmptyString
  | String c s' =>
      match rstrip chars s' with
      | EmptyString => if in_chars c chars then EmptyString else String c EmptyString
      | r => String c r
      end
  end.

(** [sep.join(parts)]. *)
Definition join (sep : string) (parts : list string) : string :=
  String.concat sep parts.

(** [str(n)] for an [int]. *)
Definition str_of_int (n : Z) : string := NilZero.string_of_int (Z.to_int n).

(** Number of occurrences of a character, [s.count(c)]. *)
Fixpoint count (c : ascii) (s : string) : nat :=
  match s with
  | EmptyString => O
  | String d s' => (if Ascii.eqb d c then 1 else 0) + count c s'
  end.

End Py.

(** ** Exceptions *)

Inductive exn :=
| AttributeError (msg : string)
| Resolver404 (path : string).

Inductive result (A : Type) :=
| Ok (a : A)
| Raise (e : exn).
Arguments Ok {A} a.
Arguments Raise {A} e.

(** ** constants.py

    The module [wavefront_django_sdk_python.constants] is imported by both
    source files but is not among them.  The two metric-name prefixes are
    fixed by the specification; the remaining constants are parameters of
    the development. *)

(** Modelled from the spec: constants.py is missing; "prefix is [request]
    for in-flight/error naming". *)
Definition REQUEST_PREFIX : string := "request".

(** Modelled from the spec: constants.py is missing; the prefix is
    "[response] when a terminal status is known". *)
Definition RESPONSE_PREFIX : string := "response".

Record Constants := {
  NULL_TAG_VAL : Py.pystr;
  WAVEFRONT_PROVIDED_SOURCE : string;
  REPORTER_PREFIX : string;
  DJANGO_COMPONENT : string;
  HEART_BEAT_INTERVAL : Z;
  APPLICATION_TAG_KEY : string;
  SERVICE_TAG_KEY : string;
  CLUSTER_TAG_KEY : string;
  SHARD_TAG_KEY : string
}.

(** ** application_tags.py *)

(** The double-quote character, for the text of the error messages. *)
Definition dquote : string := String (Ascii.ascii_of_nat 34) EmptyString.

Record ApplicationTags := {
  _application : option Py.pystr;
  _service : option Py.pystr;
  _cluster : option Py.pystr;
  _shard : option Py.pystr;
  _custom_tags : option (list (string * string))
}.

(** [ApplicationTags.__init__]. *)
Definition ApplicationTags_init
    (application service : option Py.pystr)
    (cluster shard : option Py.pystr)
    (custom_tags : option (list (string * string))) : result ApplicationTags :=
  if negb (Py.truthy application) then
    Raise (AttributeError ("Missing " ++ dquote ++ "application" ++ dquote
                           ++ " parameter in ApplicationTags!"))
  else if negb (Py.truthy service) then
    Raise (AttributeError ("Missing " ++ dquote ++ "service" ++ dquote
                           ++ " parameter in ApplicationTags!"))
  else
    Ok {| _application := application;
          _service := service;
          _cluster := cluster;
          _shard := shard;
          _custom_tags := custom_tags |}.

(** The five [@property] getters. *)
Definition application (self : ApplicationTags) := _application self.
Definition service (self : ApplicationTags) := _service self.
Definition cluster (self : ApplicationTags) := _cluster self.
Definition shard (self : ApplicationTags) := _shard self.
Definition custom_tags (self : ApplicationTags) := _custom_tags self.

(** What a name denotes on an instance, as the class body declares it: the
    five public names are properties with a getter and no setter, the five
    underscored names are the instance attributes [__init__] assigns. *)
Inductive attribute_kind :=
| ReadOnlyProperty
| InstanceAttribute.

Definition ApplicationTags_attribute (name : string) : option attribute_kind :=
  if existsb (String.eqb name)
       ["application"; "service"; "cluster"; "shard"; "custom_tags"]
  then Some ReadOnlyProperty
  else if existsb (String.eqb name)
       ["_application"; "_service"; "_cluster"; "_shard"; "_custom_tags"]
  then Some InstanceAttribute
  else None.

(** [ApplicationTags.get_as_list]; a value is the object the tuple holds. *)
Definition get_as_list (K : Constants) (self : ApplicationTags)
  : list (string * option Py.pystr) :=
  let tags :=
    [ (APPLICATION_TAG_KEY K, application self);
      (SERVICE_TAG_KEY K, service self);
      (CLUSTER_TAG_KEY K, Some (Py.or_else (cluster self) (NULL_TAG_VAL K)));
      (SHARD_TAG_KEY K, Some (Py.or_else (shard self) (NULL_TAG_VAL K))) ] in
  tags.

(** ** middleware.py: data *)

(** A view function, as far as the middleware reads it. *)
Record ViewFunc := {
  func_name_ : string;     (* [func.__name__] *)
  func_module_ : string    (* [func.__module__] *)
}.

(** Django's [ResolverMatch]. *)
Record ResolverMatch := {
  url_name : option string;
  view_name : string;
  func : ViewFunc
}.

(** Django's [HttpRequest].  [wf_marks] holds the two attributes
    [process_view] sets, [(wf_start_timestamp, wf_cpu_nanos)], or [None]
    while the request has neither; timer readings are opaque ticks. *)
Record HttpRequest := {
  path_info : string;
  method : string;
  resolver_match : option ResolverMatch;
  build_absolute_uri : string;
  wf_marks : option (Z * Z)
}.

Definition wf_start_timestamp (request : HttpRequest) : option Z :=
  fst <$> wf_marks request.

Definition wf_cpu_nanos (request : HttpRequest) : option Z :=
  snd <$> wf_marks request.

Record HttpResponse := {
  status_code : Z
}.

Record DjangoTracing := {
  _trace_all : bool
}.

(** The span of the scope the tracer holds for a request. *)
Inductive Span : Set :=
| ActiveSpan.

Record WavefrontReporter := {
  reporter_source : string;
  reporter_prefix : string;
  reporter_started : bool
}.

(** A value a setting or an environment variable can hold: [None], a
    string, a list of strings, an instance of one of the three classes
    [__init__] tests for, or some other object.  The [ApplicationTags] the
    middleware imports is the class of that name in [wavefront_sdk.common];
    its instances have the attributes of the class in application_tags.py
    and are modelled by the same record. *)
Inductive conf_value :=
| ConfNone
| ConfStr (s : string)
| ConfList (l : list string)
| ConfReporter (r : WavefrontReporter)
| ConfApplicationTags (t : ApplicationTags)
| ConfTracing (t : DjangoTracing)
| ConfObject.

(** A call on an external collaborator: the tagged registry or the tracer. *)
Inductive call :=
| Gauge_update (key : string) (tags : gmap string string) (val : Z)
| Counter_inc (key : string) (tags : gmap string string)
| Delta_counter_inc (key : string) (tags : gmap string string)
| Histogram_add (key : string) (tags : gmap string string) (sample : Z)
| Span_set_tag (key : string) (value : string)
| Apply_tracing (view_func : ViewFunc) (traced_attributes : conf_value)
| Finish_tracing.

(** The attributes [__init__] assigns on the enabled path. *)
Record Attrs := {
  reporter : WavefrontReporter;
  application_tags : ApplicationTags;
  tracing : DjangoTracing;
  APPLICATION : Py.pystr;
  CLUSTER : Py.pystr;
  SERVICE : Py.pystr;
  SHARD : Py.pystr
}.

(** A middleware instance after [__init__]: [MIDDLEWARE_ENABLED] is [True]
    exactly when the else-branch ran and assigned the attributes. *)
Inductive WavefrontMiddleware :=
| MiddlewareDisabled
| MiddlewareEnabled (attrs : Attrs).

Definition MIDDLEWARE_ENABLED (self : WavefrontMiddleware) : bool :=
  match self with
  | MiddlewareDisabled => false
  | MiddlewareEnabled _ => true
  end.

(** ** A writer for the calls a hook makes *)

Definition Calls (A : Type) : Type := (A * list call)%type.

Definition ret {A} (a : A) : Calls A := (a, []).

Definition bind {A B} (m : Calls A) (k : A -> Calls B) : Calls B :=
  let '(a, cs1) := m in
  let '(b, cs2) := k a in
  (b, (cs1 ++ cs2)%list).

Definition emit (c : call) : Calls unit := (tt, [c]).

Definition when_ (b : bool) (m : Calls unit) : Calls unit :=
  if b then m else ret tt.

Notation "m1 ;; m2" := (bind m1 (fun _ => m2))
  (at level 100, right associativity).

(** ** middleware.py: functions *)

Section Middleware.

(** The constants, Django's URL resolver, and the process-wide settings
    and environment.  [resolve path] is what [django.urls.resolve] returns
    for a path the URL configuration matches; [unmatched path] tells the
    paths it matches no route for, on which it raises [Resolver404]. *)
Context (K : Constants).
Context (resolve : string -> ResolverMatch).
Context (unmatched : string -> bool).
Context (settings : gmap string conf_value).
Context (environ : gmap string string).

(** [get_conf]. *)
Definition get_conf (key : string) : conf_value :=
  match settings !! key with
  | Some v => v
  | None =>
      match environ !! key with
      | Some s => ConfStr s
      | None => ConfNone
      end
  end.

(** The three [isinstance] tests of [__init__]. *)
Definition isinstance_WavefrontReporter (v : conf_value) : bool :=
  match v with ConfReporter _ => true | _ => false end.

Definition isinstance_ApplicationTags (v : conf_value) : bool :=
  match v with ConfApplicationTags _ => true | _ => false end.

Definition isinstance_DjangoTracing (v : conf_value) : bool :=
  match v with ConfTracing _ => true | _ => false end.

(** The else-branch of [__init__]: the attributes of an enabled
    middleware.  The calls on the reporter, the heartbeater and the
    global tracer leave no trace in what the hooks read. *)
Definition enabled_attrs (r : WavefrontReporter) (t : ApplicationTags)
    (tr : DjangoTracing) : Attrs :=
  {| reporter :=
       {| reporter_source := reporter_source r;
          reporter_prefix := REPORTER_PREFIX K;
          reporter_started := true |};
     application_tags := t;
     tracing := tr;
     APPLICATION := Py.or_else (application t) (NULL_TAG_VAL K);
     CLUSTER := Py.or_else (cluster t) (NULL_TAG_VAL K);
     SERVICE := Py.or_else (service t) (NULL_TAG_VAL K);
     SHARD := Py.or_else (shard t) (NULL_TAG_VAL K) |}.

(** [WavefrontMiddleware.__init__]: an [AttributeError] raised by a
    failed test is caught and leaves [MIDDLEWARE_ENABLED] false. *)
Definition WavefrontMiddleware_init : WavefrontMiddleware :=
  let reporter := get_conf "WF_REPORTER" in
  let application_tags := get_conf "APPLICATION_TAGS" in
  let tracing := get_conf "OPENTRACING_TRACING" in
  match reporter, application_tags, tracing with
  | ConfReporter r, ConfApplicationTags t, ConfTracing tr =>
      MiddlewareEnabled (enabled_attrs r t tr)
  | _, _, _ => MiddlewareDisabled
  end.

(** One [if value: tags_map[key] = value] of [get_tags_map]. *)
Definition set_if_truthy (key : string) (value : option string)
    (tags_map : gmap string string) : gmap string string :=
  match value with
  | Some v => if Py.truthy_string v then <[key := v]> tags_map else tags_map
  | None => tags_map
  end.

(** [get_tags_map]. *)
Definition get_tags_map
    (cluster service shard : option Py.pystr)
    (module_name func_name source : option string) : gmap string string :=
  let tags_map : gmap string string := ∅ in
  let tags_map := set_if_truthy "cluster" (Py.str_val <$> cluster) tags_map in
  let tags_map := set_if_truthy "service" (Py.str_val <$> service) tags_map in
  let tags_map := set_if_truthy "shard" (Py.str_val <$> shard) tags_map in
  let tags_map := set_if_truthy "django.resource.module" module_name tags_map in
  let tags_map := set_if_truthy "django.resource.func" func_name tags_map in
  let tags_map := set_if_truthy "source" source tags_map in
  tags_map.

(** The name [get_entity_name] starts from when the route matched:
    [url_name], or [view_name] when [url_name] is empty or [None]. *)
Definition route_name (resolver_match : ResolverMatch) : string :=
  match url_name resolver_match with
  | Some n => if Py.truthy_string n then n else view_name resolver_match
  | None => view_name resolver_match
  end.

(** [get_entity_name]. *)
Definition get_entity_name (request : HttpRequest) : string :=
  let entity_name :=
    match resolver_match request with
    | Some resolver_match =>
        let entity_name := route_name resolver_match in
        Py.replace "}" "_"
          (Py.replace "{" "_"
             (Py.replace "/" "."
                (Py.replace "-" "_" entity_name)))
    | None => "UNKNOWN"
    end in
  Py.rstrip "." (Py.lstrip "." entity_name).

(** [get_metric_name]. *)
Definition get_metric_name (entity_name : string) (request : HttpRequest)
    (response : option HttpResponse) : string :=
  let metric_name := [entity_name; method request] in
  let metric_name :=
    match response with
    | Some response =>
        ((RESPONSE_PREFIX :: metric_name)
           ++ [Py.str_of_int (status_code response)])%list
    | None => REQUEST_PREFIX :: metric_name
    end in
  Py.join "." metric_name.

(** [get_metric_name_without_status]. *)
Definition get_metric_name_without_status (entity_name : string)
    (request : HttpRequest) : string :=
  let metric_name := [entity_name; method request] in
  let metric_name := REQUEST_PREFIX :: metric_name in
  Py.join "." metric_name.

(** [is_error_status_code]. *)
Definition is_error_status_code (response : HttpResponse) : bool :=
  (400 <=? status_code response) && (status_code response <=? 599).

(** [process_view]; [timer] and [clock] are what [default_timer()] and
    [time.clock()] return.  Django calls [process_view] with the view it
    has resolved for the path of the request, so [resolve] finds a route
    here. *)
Definition process_view (self : WavefrontMiddleware) (request : HttpRequest)
    (view_func : ViewFunc) (timer clock : Z) : Calls HttpRequest :=
  match self with
  | MiddlewareDisabled => ret request
  | MiddlewareEnabled self =>
      let request :=
        {| path_info := path_info request;
           method := method request;
           resolver_match := resolver_match request;
           build_absolute_uri := build_absolute_uri request;
           wf_marks := Some (timer, clock) |} in
      let entity_name := get_entity_name request in
      let func_name := func_name_ (func (resolve (path_info request))) in
      let module_name := func_module_ (func (resolve (path_info request))) in
      emit (Gauge_update
              (get_metric_name entity_name request None ++ ".inflight")
              (get_tags_map None None None
                 (Some module_name) (Some func_name) None)
              1) ;;
      emit (Gauge_update
              "total_requests.inflight"
              (get_tags_map (Some (CLUSTER self)) (Some (SERVICE self))
                 (Some (SHARD self)) None None None)
              1) ;;
      (if negb (_trace_all (tracing self)) then ret tt
       else
         let traced_attributes :=
           match settings !! "OPENTRACING_TRACED_ATTRIBUTES" with
           | Some v => v
           | None => ConfList []
           end in
         emit (Apply_tracing view_func traced_attributes)) ;;
      ret request
  end.

(** [process_response].  [self.tracing] is an object, hence true, on the
    enabled path.  [span] is what [self.tracing.get_span(request)]
    returns: the span of the scope [_apply_tracing] opened for the
    request, [None] when tracing was not applied to it.  Two statements
    can raise before any call is made: [resolve] on a path that matches no
    route, and [span.set_tag] on [None]. *)
Definition process_response (self : WavefrontMiddleware)
    (request : HttpRequest) (response : HttpResponse) (span : option Span)
    (timer clock : Z)
  : Calls (result HttpResponse) :=
  match self with
  | MiddlewareDisabled => ret (Ok response)
  | MiddlewareEnabled self =>
      let entity_name := get_entity_name request in
      if unmatched (path_info request)
      then ret (Raise (Resolver404 (path_info request))) else
      let func_name := func_name_ (func (resolve (path_info request))) in
      let module_name := func_module_ (func (resolve (path_info request))) in

      match span with
      | None =>
          ret (Raise (AttributeError
                        "'NoneType' object has no attribute 'set_tag'"))
      | Some _ =>
      emit (Span_set_tag "http.status_code"
              (Py.str_of_int (status_code response))) ;;
      when_ (is_error_status_code response)
        (emit (Span_set_tag "error" "true")) ;;
      emit (Span_set_tag "span.kind" "server") ;;
      emit (Span_set_tag "django.resource.module" module_name) ;;
      emit (Span_set_tag "django.resource.func" func_name) ;;
      emit (Span_set_tag "component" (DJANGO_COMPONENT K)) ;;
      emit (Span_set_tag "http.method" (method request)) ;;
      emit (Span_set_tag "http.url" (build_absolute_uri request)) ;;
      emit Finish_tracing ;;

      emit (Gauge_update
              (get_metric_name entity_name request None ++ ".inflight")
              (get_tags_map None None None
                 (Some module_name) (Some func_name) None)
              (-1)) ;;
      emit (Gauge_update
              "total_requests.inflight"
              (get_tags_map (Some (CLUSTER self)) (Some (SERVICE self))
                 (Some (SHARD self)) None None None)
              (-1)) ;;

      let response_metric_key :=
        get_metric_name entity_name request (Some response) in

      let complete_tags_map :=
        get_tags_map (Some (CLUSTER self)) (Some (SERVICE self))
          (Some (SHARD self)) (Some module_name) (Some func_name) None in
      let aggregated_per_shard_map :=
        get_tags_map (Some (CLUSTER self)) (Some (SERVICE self))
          (Some (SHARD self)) (Some module_name) (Some func_name)
          (Some (WAVEFRONT_PROVIDED_SOURCE K)) in
      let overall_aggregated_per_source_map :=
        get_tags_map (Some (CLUSTER self)) (Some (SERVICE self))
          (Some (SHARD self)) None None None in
      let overall_aggregated_per_shard_map :=
        get_tags_map (Some (CLUSTER self)) (Some (SERVICE self))
          (Some (SHARD self)) None None
          (Some (WAVEFRONT_PROVIDED_SOURCE K)) in
      let aggregated_per_service_map :=
        get_tags_map (Some (CLUSTER self)) (Some (SERVICE self)) None
          (Some module_name) (Some func_name)
          (Some (WAVEFRONT_PROVIDED_SOURCE K)) in
      let overall_aggregated_per_service_map :=
        get_tags_map (Some (CLUSTER self)) (Some (SERVICE self)) None
          None None (Some (WAVEFRONT_PROVIDED_SOURCE K)) in
      let aggregated_per_cluster_map :=
        get_tags_map (Some (CLUSTER self)) None None
          (Some module_name) (Some func_name)
          (Some (WAVEFRONT_PROVIDED_SOURCE K)) in
      let overall_aggregated_per_cluster_map :=
        get_tags_map (Some (CLUSTER self)) None None
          None None (Some (WAVEFRONT_PROVIDED_SOURCE K)) in
      let aggregated_per_application_map :=
        get_tags_map None None None
          (Some module_name) (Some func_name)
          (Some (WAVEFRONT_PROVIDED_SOURCE K)) in
      let overall_aggregated_per_application_map :=
        get_tags_map None None None
          None None (Some (WAVEFRONT_PROVIDED_SOURCE K)) in

      emit (Counter_inc (response_metric_key ++ ".cumulative")
              complete_tags_map) ;;
      when_ (Py.truthy (shard (application_tags self)))
        (emit (Delta_counter_inc
                 (response_metric_key ++ ".aggregated_per_shard")
                 aggregated_per_shard_map)) ;;
      emit (Delta_counter_inc
              (response_metric_key ++ ".aggregated_per_service")
              aggregated_per_service_map) ;;
      when_ (Py.truthy (cluster (application_tags self)))
        (emit (Delta_counter_inc
                 (response_metric_key ++ ".aggregated_per_cluster")
                 aggregated_per_cluster_map)) ;;
      emit (Delta_counter_inc
              (response_metric_key ++ ".aggregated_per_application")
              aggregated_per_application_map) ;;

      when_ (is_error_status_code response)
        (emit (Counter_inc
                 (get_metric_name_without_status entity_name request)
                 complete_tags_map) ;;
         emit (Counter_inc "response.errors" complete_tags_map) ;;
         emit (Counter_inc "response.errors.aggregated_per_source"
                 overall_aggregated_per_source_map) ;;
         when_ (Py.truthy (shard (application_tags self)))
           (emit (Delta_counter_inc "response.errors.aggregated_per_shard"
                    overall_aggregated_per_shard_map)) ;;
         emit (Delta_counter_inc "response.errors.aggregated_per_service"
                 overall_aggregated_per_service_map) ;;
         when_ (Py.truthy (cluster (application_tags self)))
           (emit (Delta_counter_inc "response.errors.aggregated_per_cluster"
                    overall_aggregated_per_cluster_map)) ;;
         emit (Delta_counter_inc "response.errors.aggregated_per_application"
                 overall_aggregated_per_application_map)) ;;

      emit (Counter_inc "response.completed.aggregated_per_source"
              overall_aggregated_per_source_map) ;;
      when_ (negb (Py.is_ (SHARD self) (NULL_TAG_VAL K)))
        (emit (Delta_counter_inc "response.completed.aggregated_per_shard"
                 overall_aggregated_per_shard_map) ;;
         emit (Counter_inc "response.completed.aggregated_per_service"
                 overall_aggregated_per_service_map)) ;;
      when_ (negb (Py.is_ (CLUSTER self) (NULL_TAG_VAL K)))
        (emit (Delta_counter_inc "response.completed.aggregated_per_cluster"
                 overall_aggregated_per_cluster_map) ;;
         emit (Counter_inc "response.completed.aggregated_per_application"
                 overall_aggregated_per_application_map)) ;;

      match wf_marks request with
      | Some (wf_start_timestamp, wf_cpu_nanos) =>
          let timestamp_duration := timer - wf_start_timestamp in
          let cpu_nanos_duration := clock - wf_cpu_nanos in
          emit (Histogram_add (response_metric_key ++ ".latency")
                  complete_tags_map timestamp_duration) ;;
          emit (Histogram_add (response_metric_key ++ ".cpu_ns")
                  complete_tags_map cpu_nanos_duration)
      | None => ret tt
      end ;;
      ret (Ok response)
      end
  end.

End Middleware.

(** ** The tagged registry *)

(** Modelled from the spec: [wavefront_pyformance]'s [TaggedRegistry] is an
    external library.  A metric is keyed by its name and tag set; a lookup
    creates the metric on first touch; a gauge starts uninitialised (NaN),
    a counter at zero; a histogram accumulates its samples. *)
Record TaggedRegistry := {
  gauges : gmap (string * gmap string string) Z;
  counters : gmap (string * gmap string string) Z;
  delta_counters : gmap (string * gmap string string) Z;
  histograms : gmap (string * gmap string string) (list Z)
}.

Definition empty_registry : TaggedRegistry :=
  {| gauges := ∅; counters := ∅; delta_counters := ∅; histograms := ∅ |}.

(** [update_gauge]: [None] is the NaN of a gauge never set. *)
Definition update_gauge (registry : TaggedRegistry) (key : string)
    (tags : gmap string string) (val : Z) : TaggedRegistry :=
  let cur_val := gauges registry !! (key, tags) in
  let cur_val := match cur_val with Some v => v | None => 0 end in
  {| gauges := <[(key, tags) := cur_val + val]> (gauges registry);
     counters := counters registry;
     delta_counters := delta_counters registry;
     histograms := histograms registry |}.

(** What a gauge reads as, NaN read as zero the way [update_gauge] does. *)
Definition gauge_value (registry : TaggedRegistry) (key : string)
    (tags : gmap string string) : Z :=
  match gauges registry !! (key, tags) with Some v => v | None => 0 end.

Definition counter_value (registry : TaggedRegistry) (key : string)
    (tags : gmap string string) : Z :=
  match counters registry !! (key, tags) with Some v => v | None => 0 end.

(** The effect of one call on the registry; calls on the tracer have none. *)
Definition run_call (registry : TaggedRegistry) (c : call) : TaggedRegistry :=
  match c with
  | Gauge_update key tags val => update_gauge registry key tags val
  | Counter_inc key tags =>
      {| gauges := gauges registry;
         counters :=
           <[(key, tags) := counter_value registry key tags + 1]>
             (counters registry);
         delta_counters := delta_counters registry;
         histograms := histograms registry |}
  | Delta_counter_inc key tags =>
      {| gauges := gauges registry;
         counters := counters registry;
         delta_counters :=
           <[(key, tags) :=
               match delta_counters registry !! (key, tags) with
               | Some v => v + 1
               | None => 1
               end]> (delta_counters registry);
         histograms := histograms registry |}
  | Histogram_add key tags sample =>
      {| gauges := gauges registry;
         counters := counters registry;
         delta_counters := delta_counters registry;
         histograms :=
           <[(key, tags) :=
               match histograms registry !! (key, tags) with
               | Some l => (l ++ [sample])%list
               | None => [sample]
               end]> (histograms registry) |}
  | Span_set_tag _ _ | Apply_tracing _ _ | Finish_tracing => registry
  end.

Definition run_calls (registry : TaggedRegistry) (cs : list call)
  : TaggedRegistry :=
  fold_left run_call cs registry.

(** ** Observations on a list of calls *)

(** Names of the cumulative counters incremented, in order. *)
Fixpoint counter_names (cs : list call) : list string :=
  match cs with
  | [] => []
  | Counter_inc key _ :: cs' => key :: counter_names cs'
  | _ :: cs' => counter_names cs'
  end.

(** Names of the delta counters incremented, in order. *)
Fixpoint delta_names (cs : list call) : list string :=
  match cs with
  | [] => []
  | Delta_counter_inc key _ :: cs' => key :: delta_names cs'
  | _ :: cs' => delta_names cs'
  end.

(** The cumulative counters incremented, with their tag sets, in order. *)
Fixpoint counter_incs (cs : list call) : list (string * gmap string string) :=
  match cs with
  | [] => []
  | Counter_inc key tags :: cs' => (key, tags) :: counter_incs cs'
  | _ :: cs' => counter_incs cs'
  end.

(** The delta counters incremented, with their tag sets, in order. *)
Fixpoint delta_incs (cs : list call) : list (string * gmap string string) :=
  match cs with
  | [] => []
  | Delta_counter_inc key tags :: cs' => (key, tags) :: delta_incs cs'
  | _ :: cs' => delta_incs cs'
  end.

(** The gauge updates among the calls, in order. *)
Fixpoint gauge_updates (cs : list call)
  : list (string * gmap string string * Z) :=
  match cs with
  | [] => []
  | Gauge_update key tags val :: cs' => (key, tags, val) :: gauge_updates cs'
  | _ :: cs' => gauge_updates cs'
  end.

(** What a list of gauge updates adds to the gauge [(key, tags)]. *)
Fixpoint gauge_change (us : list (string * gmap string string * Z))
    (key : string) (tags : gmap string string) : Z :=
  match us with
  | [] => 0
  | (key', tags', val) :: us' =>
      (if decide ((key', tags') = (key, tags)) then val else 0)
      + gauge_change us' key tags
  end.

(** The tag set a registry call carries. *)
Definition call_tags (c : call) : option (gmap string string) :=
  match c with
  | Gauge_update _ tags _ | Counter_inc _ tags
  | Delta_counter_inc _ tags | Histogram_add _ tags _ => Some tags
  | Span_set_tag _ _ | Apply_tracing _ _ | Finish_tracing => None
  end.

(** ** Entity-name sanitization, read off [get_entity_name] *)

(** The composite [get_entity_name] applies to the name of a matched route:
    the four replacements in their order, then the two strips. *)
Definition sanitize (name : string) : string :=
  Py.rstrip "." (Py.lstrip "."
    (Py.replace "}" "_"
       (Py.replace "{" "_"
          (Py.replace "/" "."
             (Py.replace "-" "_" name))))).

(** The character-wise reading of the four replacements. *)
Definition entity_char (c : ascii) : ascii :=
  if Ascii.eqb c "-" then "_"%char
  else if Ascii.eqb c "/" then "."%char
  else if Ascii.eqb c "{" then "_"%char
  else if Ascii.eqb c "}" then "_"%char
  else c.

Fixpoint map_chars (f : ascii -> ascii) (s : string) : string :=
  match s with
  | EmptyString => EmptyString
  | String c s' => String (f c) (map_chars f s')
  end.

(** Every character of [s] is left alone by [f]. *)
Definition fixed_by (f : ascii -> ascii) (s : string) : Prop :=
  map_chars f s = s.

(** The string does not begin with a character of [chars]. *)
Definition no_lead (chars s : string) : Prop :=
  match s with
  | EmptyString => True
  | String c _ => Py.in_chars c chars = false
  end.

(** First and last character of a string. *)
Definition first_char (s : string) : option ascii :=
  match s with
  | EmptyString => None
  | String c _ => Some c
  end.

Fixpoint last_char (s : string) : option ascii :=
  match s with
  | EmptyString => None
  | String c EmptyString => Some c
  | String _ s' => last_char s'
  end.

(** A request differing from [request] in the route it matched only. *)
Definition with_route (request : HttpRequest) (m : ResolverMatch) : HttpRequest :=
  {| path_info := path_info request;
     method := method request;
     resolver_match := Some m;
     build_absolute_uri := build_absolute_uri request;
     wf_marks := wf_marks request |}.

(** A route known by [name] alone. *)
Definition route_named (name : string) (f : ViewFunc) : ResolverMatch :=
  {| url_name := Some name; view_name := name; func := f |}.

(** An optional string that is [None] or empty. *)
Definition missing_or_empty (x : option Py.pystr) : Prop :=
  match x with
  | None => True
  | Some s => Py.str_val s = ""
  end.

(** An optional dimension is configured when it holds a non-empty string
    that is not the null-tag sentinel object itself. *)
Definition configured (K : Constants) (x : option Py.pystr) : Prop :=
  match x with
  | Some s =>
      Py.truthy_string (Py.str_val s) = true
      /\ Py.is_ s (NULL_TAG_VAL K) = false
  | None => False
  end.

(** The metric name a registry call carries. *)
Definition call_key (c : call) : option string :=
  match c with
  | Gauge_update key _ _ | Counter_inc key _
  | Delta_counter_inc key _ | Histogram_add key _ _ => Some key
  | Span_set_tag _ _ | Apply_tracing _ _ | Finish_tracing => None
  end.

(** The call is a registry call whose tag set binds [key] to [value]. *)
Definition carries_tag (key value : string) (c : call) : bool :=
  match call_tags c with
  | Some tags => bool_decide (tags !! key = Some value)
  | None => false
  end.

(** ** Further observations *)

(** The histogram samples recorded, in order. *)
Fixpoint histogram_adds (cs : list call)
  : list (string * gmap string string * Z) :=
  match cs with
  | [] => []
  | Histogram_add key tags sample :: cs' =>
      (key, tags, sample) :: histogram_adds cs'
  | _ :: cs' => histogram_adds cs'
  end.

(** The tags set on the tracing span, in order. *)
Fixpoint span_tags (cs : list call) : list (string * string) :=
  match cs with
  | [] => []
  | Span_set_tag key value :: cs' => (key, value) :: span_tags cs'
  | _ :: cs' => span_tags cs'
  end.

(** The calls that start or finish the tracing of a request, in order. *)
Fixpoint tracing_calls (cs : list call) : list call :=
  match cs with
  | [] => []
  | Apply_tracing f a :: cs' => Apply_tracing f a :: tracing_calls cs'
  | Finish_tracing :: cs' => Finish_tracing :: tracing_calls cs'
  | _ :: cs' => tracing_calls cs'
  end.

(** The tag sets of the registry calls, in order. *)
Fixpoint tag_sets (cs : list call) : list (gmap string string) :=
  match cs with
  | [] => []
  | c :: cs' =>
      match call_tags c with
      | Some tags => tags :: tag_sets cs'
      | None => tag_sets cs'
      end
  end.

(** How many of the increments listed are of the counter [(key, tags)]. *)
Fixpoint increments_of (incs : list (string * gmap string string))
    (key : string) (tags : gmap string string) : Z :=
  match incs with
  | [] => 0
  | inc :: incs' =>
      (if decide (inc = (key, tags)) then 1 else 0)
      + increments_of incs' key tags
  end.

(** What a delta counter reads as, zero before its first increment. *)
Definition delta_counter_value (registry : TaggedRegistry) (key : string)
    (tags : gmap string string) : Z :=
  match delta_counters registry !! (key, tags) with Some v => v | None => 0 end.

(** Every character of the string satisfies the test. *)
Fixpoint all_chars (test : ascii -> bool) (s : string) : bool :=
  match s with
  | EmptyString => true
  | String c s' => test c && all_chars test s'
  end.

(** The six keys [get_tags_map] can set, each with the argument it takes
    its value from. *)
Definition tag_arguments
    (cluster service shard : option Py.pystr)
    (module_name func_name source : option string)
  : list (string * option string) :=
  [ ("cluster", Py.str_val <$> cluster);
    ("service", Py.str_val <$> service);
    ("shard", Py.str_val <$> shard);
    ("django.resource.module", module_name);
    ("django.resource.func", func_name);
    ("source", source) ].

(** An argument of a coarser scope: dropped, or passed on as it is. *)
Definition dropped_or_same {A} (coarse fine : option A) : Prop :=
  coarse = None \/ coarse = fine.

(** One call of a hook, with what it is given. *)
Inductive hook_call :=
| View (request : HttpRequest) (view_func : ViewFunc) (timer clock : Z)
| Response (request : HttpRequest) (response : HttpResponse)
    (span : option Span) (timer clock : Z).

(** The calls one hook call makes on its collaborators. *)
Definition calls_of_hook (K : Constants) (resolve : string -> ResolverMatch)
    (unmatched : string -> bool)
    (settings : gmap string conf_value) (self : WavefrontMiddleware)
    (h : hook_call) : list call :=
  match h with
  | View request view_func timer clock =>
      snd (process_view resolve settings self request view_func timer clock)
  | Response request response span timer clock =>
      snd (process_response K resolve unmatched self request response span
             timer clock)
  end.

(** The calls a sequence of hook calls makes, in order. *)
Definition calls_of_hooks (K : Constants) (resolve : string -> ResolverMatch)
    (unmatched : string -> bool)
    (settings : gmap string conf_value) (self : WavefrontMiddleware)
    (hs : list hook_call) : list call :=
  flat_map (calls_of_hook K resolve unmatched settings self) hs.

(** [process_response] gets past the two statements that can raise: the
    path of the request matches a route and the tracer holds a span for
    the request. *)
Definition instruments (unmatched : string -> bool) (request : HttpRequest)
    (span : option Span) : bool :=
  negb (unmatched (path_info request))
  && match span with Some _ => true | None => false end.

(** How many of the hook calls are [process_view]. *)
Fixpoint views (hs : list hook_call) : nat :=
  match hs with
  | [] => O
  | View _ _ _ _ :: hs' => S (views hs')
  | Response _ _ _ _ _ :: hs' => views hs'
  end.

(** How many of the hook calls are [process_response] on a request whose
    path matches a route and that has a span. *)
Fixpoint instrumented_responses (unmatched : string -> bool)
    (hs : list hook_call) : nat :=
  match hs with
  | [] => O
  | View _ _ _ _ :: hs' => instrumented_responses unmatched hs'
  | Response request _ span _ _ :: hs' =>
      (if instruments unmatched request span then 1 else 0)
      + instrumented_responses unmatched hs'
  end.

(** How many of those have a status in [400, 599]. *)
Fixpoint instrumented_error_responses (unmatched : string -> bool)
    (hs : list hook_call) : nat :=
  match hs with
  | [] => O
  | View _ _ _ _ :: hs' => instrumented_error_responses unmatched hs'
  | Response request response span _ _ :: hs' =>
      (if instruments unmatched request span
          && ((400 <=? status_code response) && (status_code response <=? 599))
       then 1 else 0)
      + instrumented_error_responses unmatched hs'
  end.

(** The six keys of a tag set. *)
Definition tag_keys : list string :=
  ["cluster"; "service"; "shard";
   "django.resource.module"; "django.resource.func"; "source"].

(** ** Sample data *)

(** A set of constants to run the model on: constants.py being absent,
    the values stand for any choice with a non-empty null-tag sentinel. *)
Definition sample_constants : Constants :=
  {| NULL_TAG_VAL := Py.PyStr 0 "none";
     WAVEFRONT_PROVIDED_SOURCE := "wavefront-provided";
     REPORTER_PREFIX := "django.server.";
     DJANGO_COMPONENT := "django";
     HEART_BEAT_INTERVAL := 300;
     APPLICATION_TAG_KEY := "application";
     SERVICE_TAG_KEY := "service";
     CLUSTER_TAG_KEY := "cluster";
     SHARD_TAG_KEY := "shard" |}.

Definition make_view : ViewFunc :=
  {| func_name_ := "make"; func_module_ := "styling.views" |}.

Definition make_match : ResolverMatch :=
  {| url_name := Some "make"; view_name := "make"; func := make_view |}.

Definition sample_resolve (path : string) : ResolverMatch := make_match.

(** [GET /make/7], routed to the view named [make]. *)
Definition make_request : HttpRequest :=
  {| path_info := "/make/7";
     method := "GET";
     resolver_match := Some make_match;
     build_absolute_uri := "http://localhost/make/7";
     wf_marks := None |}.

(** [make_request] once [process_view] has seen it at timer 5, clock 6. *)
Definition make_request_started : HttpRequest :=
  {| path_info := "/make/7";
     method := "GET";
     resolver_match := Some make_match;
     build_absolute_uri := "http://localhost/make/7";
     wf_marks := Some (5, 6) |}.

(** The URL configuration matches the paths under [/make/] only. *)
Definition sample_unmatched (path : string) : bool :=
  negb (String.prefix "/make/" path).

(** [GET /nowhere]: no route, so no [resolver_match] and no view. *)
Definition nowhere_request : HttpRequest :=
  {| path_info := "/nowhere";
     method := "GET";
     resolver_match := None;
     build_absolute_uri := "http://localhost/nowhere";
     wf_marks := None |}.

Definition sample_reporter : WavefrontReporter :=
  {| reporter_source := "host-1"; reporter_prefix := ""; reporter_started := false |}.

Definition sample_tracing : DjangoTracing := {| _trace_all := true |}.

(** application [beachshirts], service [styling], no cluster, no shard. *)
Definition beachshirts : ApplicationTags :=
  {| _application := Some (Py.PyStr 1 "beachshirts");
     _service := Some (Py.PyStr 2 "styling");
     _cluster := None;
     _shard := None;
     _custom_tags := None |}.

(** The same application with an empty string for the shard. *)
Definition beachshirts_blank_shard : ApplicationTags :=
  {| _application := Some (Py.PyStr 1 "beachshirts");
     _service := Some (Py.PyStr 2 "styling");
     _cluster := None;
     _shard := Some (Py.PyStr 3 "");
     _custom_tags := None |}.

(** The same application with the null-tag sentinel object, taken from
    the constants, passed as the shard. *)
Definition beachshirts_sentinel_shard : ApplicationTags :=
  {| _application := Some (Py.PyStr 1 "beachshirts");
     _service := Some (Py.PyStr 2 "styling");
     _cluster := None;
     _shard := Some (Py.PyStr 0 "none");
     _custom_tags := None |}.

Definition settings_of (t : ApplicationTags) : gmap string conf_value :=
  <["WF_REPORTER" := ConfReporter sample_reporter]>
    (<["APPLICATION_TAGS" := ConfApplicationTags t]>
       (<["OPENTRACING_TRACING" := ConfTracing sample_tracing]> ∅)).

Definition sample_middleware (t : ApplicationTags) : WavefrontMiddleware :=
  WavefrontMiddleware_init sample_constants (settings_of t) ∅.

(** A route named after its path template. *)
Definition style_match : ResolverMatch :=
  {| url_name := Some "/style/{id}/make-shirt/";
     view_name := "styling.views.make";
     func := make_view |}.

(** A route without a name: Django reports the view's dotted path. *)
Definition unnamed_match : ResolverMatch :=
  {| url_name := None; view_name := "styling.views.make"; func := make_view |}.

(** * Properties *)

(** ** Strings *)

Section StringFacts.

Lemma truthy_missing_or_empty x :
  Py.truthy x = false <-> missing_or_empty x.
Proof.
  destruct x as [[i [|c s]]|]; simpl; split; intros H;
    try reflexivity; try exact I; discriminate.
Qed.

Lemma entity_char_replace c :
  (let r (o n x : ascii) := if Ascii.eqb x o then n else x in
   r "}" "_" (r "{" "_" (r "/" "." (r "-" "_" c))))%char = entity_char c.
Proof.
  unfold entity_char. simpl.
  destruct (Ascii.eqb_spec c "-") as [->|H1]; [reflexivity|].
  destruct (Ascii.eqb_spec c "/") as [->|H2]; [reflexivity|].
  destruct (Ascii.eqb_spec c "{") as [->|H3]; [reflexivity|].
  destruct (Ascii.eqb_spec c "}") as [->|H4]; reflexivity.
Qed.

Lemma replace_chain_map s :
  Py.replace "}" "_" (Py.replace "{" "_"
    (Py.replace "/" "." (Py.replace "-" "_" s)))
  = map_chars entity_char s.
Proof.
  induction s as [|c s IH]; [reflexivity|].
  cbn [Py.replace map_chars]. rewrite IH. f_equal.
  apply (entity_char_replace c).
Qed.

Lemma entity_char_idem c : entity_char (entity_char c) = entity_char c.
Proof.
  unfold entity_char at 2 3.
  destruct (Ascii.eqb_spec c "-") as [->|H1]; [reflexivity|].
  destruct (Ascii.eqb_spec c "/") as [->|H2]; [reflexivity|].
  destruct (Ascii.eqb_spec c "{") as [->|H3]; [reflexivity|].
  destruct (Ascii.eqb_spec c "}") as [->|H4]; [reflexivity|].
  unfold entity_char.
  destruct (Ascii.eqb_spec c "-"); [contradiction|].
  destruct (Ascii.eqb_spec c "/"); [contradiction|].
  destruct (Ascii.eqb_spec c "{"); [contradiction|].
  destruct (Ascii.eqb_spec c "}"); [contradiction|reflexivity].
Qed.

Lemma fixed_by_cons f c s :
  fixed_by f (String c s) <-> f c = c /\ fixed_by f s.
Proof.
  unfold fixed_by. simpl. split.
  - intros H. injection H as H1 H2. auto.
  - intros [H1 H2]. congruence.
Qed.

Lemma map_chars_fixed s : fixed_by entity_char (map_chars entity_char s).
Proof.
  induction s as [|c s IH]; [reflexivity|].
  simpl. apply fixed_by_cons. split; [apply entity_char_idem | exact IH].
Qed.

Lemma lstrip_fixed f chars s :
  fixed_by f s -> fixed_by f (Py.lstrip chars s).
Proof.
  induction s as [|c s IH]; intros H; [exact H|].
  simpl. destruct (Py.in_chars c chars); [|exact H].
  apply IH. apply fixed_by_cons in H. tauto.
Qed.

Lemma rstrip_fixed f chars s :
  fixed_by f s -> fixed_by f (Py.rstrip chars s).
Proof.
  induction s as [|c s IH]; intros H; [exact H|].
  apply fixed_by_cons in H. destruct H as [Hc Hs]. specialize (IH Hs).
  simpl. destruct (Py.rstrip chars s) as [|d r].
  - destruct (Py.in_chars c chars); [reflexivity|].
    apply fixed_by_cons. split; [exact Hc | reflexivity].
  - apply fixed_by_cons. split; [exact Hc | exact IH].
Qed.

Lemma lstrip_no_lead chars s : no_lead chars (Py.lstrip chars s).
Proof.
  induction s as [|c s IH]; [exact I|].
  simpl. destruct (Py.in_chars c chars) eqn:E; [exact IH | exact E].
Qed.

Lemma lstrip_id chars s : no_lead chars s -> Py.lstrip chars s = s.
Proof.
  destruct s as [|c s]; [reflexivity|]. simpl. intros ->. reflexivity.
Qed.

Lemma rstrip_no_lead chars s :
  no_lead chars s -> no_lead chars (Py.rstrip chars s).
Proof.
  destruct s as [|c s]; [trivial|]. simpl. intros H.
  destruct (Py.rstrip chars s); [rewrite H|]; exact H.
Qed.

Lemma rstrip_idem chars s :
  Py.rstrip chars (Py.rstrip chars s) = Py.rstrip chars s.
Proof.
  induction s as [|c s IH]; [reflexivity|].
  simpl. destruct (Py.rstrip chars s) as [|d r] eqn:E.
  - destruct (Py.in_chars c chars) eqn:Ec; [reflexivity|].
    simpl. rewrite Ec. reflexivity.
  - change (Py.rstrip chars (String c (String d r)))
      with (match Py.rstrip chars (String d r) with
            | EmptyString =>
                if Py.in_chars c chars then EmptyString
                else String c EmptyString
            | r0 => String c r0
            end).
    rewrite IH. reflexivity.
Qed.

Lemma sanitize_map name :
  sanitize name
  = Py.rstrip "." (Py.lstrip "." (map_chars entity_char name)).
Proof. unfold sanitize. rewrite replace_chain_map. reflexivity. Qed.

Lemma sanitize_idem name : sanitize (sanitize name) = sanitize name.
Proof.
  rewrite (sanitize_map (sanitize name)).
  assert (F : fixed_by entity_char (sanitize name)).
  { rewrite sanitize_map. apply rstrip_fixed, lstrip_fixed, map_chars_fixed. }
  rewrite F.
  rewrite lstrip_id.
  - rewrite sanitize_map. apply rstrip_idem.
  - rewrite sanitize_map. apply rstrip_no_lead, lstrip_no_lead.
Qed.

Lemma rstrip_no_trail chars s c :
  last_char (Py.rstrip chars s) = Some c -> Py.in_chars c chars = false.
Proof.
  induction s as [|d s IH]; [discriminate|].
  simpl. destruct (Py.rstrip chars s) as [|e r] eqn:E.
  - destruct (Py.in_chars d chars) eqn:Ed; [discriminate|].
    simpl. intros [= <-]. exact Ed.
  - intros H. apply IH. exact H.
Qed.

End StringFacts.

(** ** Entity names *)

Lemma get_entity_name_matched request m :
  resolver_match request = Some m ->
  get_entity_name request = sanitize (route_name m).
Proof. intros H. unfold get_entity_name, sanitize. rewrite H. reflexivity. Qed.

Lemma route_name_route_named name f : route_name (route_named name f) = name.
Proof. unfold route_name, route_named. simpl. destruct name; reflexivity. Qed.

(** C7: on a matched route, [get_entity_name] rewrites the route's name
    character by character, ['-'] to ['_'], ['/'] to ['.'], ['{'] and ['}']
    to ['_'], every other character kept, and then strips the leading and
    the trailing ['.']; the result neither starts nor ends with ['.'], and
    a route named by that result gets the same entity name again. *)
Theorem get_entity_name_sanitizes_idempotently
    (request : HttpRequest) (m : ResolverMatch) (f : ViewFunc)
    (Hm : resolver_match request = Some m) :
  get_entity_name request
  = Py.rstrip "." (Py.lstrip "." (map_chars entity_char (route_name m)))
  /\ (entity_char "-" = "_" /\ entity_char "/" = "." /\
      entity_char "{" = "_" /\ entity_char "}" = "_")%char
  /\ first_char (get_entity_name request) <> Some "."%char
  /\ last_char (get_entity_name request) <> Some "."%char
  /\ sanitize (get_entity_name request) = get_entity_name request
  /\ get_entity_name
       (with_route request (route_named (get_entity_name request) f))
     = get_entity_name request.
Proof.
  rewrite (get_entity_name_matched _ _ Hm).
  repeat split.
  - apply sanitize_map.
  - rewrite sanitize_map.
    pose proof (rstrip_no_lead "." _ (lstrip_no_lead "."
                  (map_chars entity_char (route_name m)))) as H.
    destruct (Py.rstrip "." _) as [|c r]; [discriminate|].
    simpl in *. intros [= ->]. discriminate.
  - rewrite sanitize_map. intros H.
    apply rstrip_no_trail in H. discriminate.
  - apply sanitize_idem.
  - rewrite (get_entity_name_matched
               (with_route request (route_named (sanitize (route_name m)) f))
               (route_named (sanitize (route_name m)) f) eq_refl).
    rewrite route_name_route_named. apply sanitize_idem.
Qed.

Lemma get_entity_name_sanitizes_idempotently_witness :
  get_entity_name (with_route make_request style_match) = "style._id_.make_shirt"
  /\ get_entity_name
       (with_route (with_route make_request style_match)
          (route_named "style._id_.make_shirt" make_view))
     = "style._id_.make_shirt".
Proof.
  pose proof (get_entity_name_sanitizes_idempotently
                (with_route make_request style_match) style_match make_view
                eq_refl) as H.
  split; [reflexivity | exact (proj2 (proj2 (proj2 (proj2 (proj2 H)))))].
Defined.

(** C10: a request whose matched route has an empty or absent [url_name]
    takes its entity name from [view_name], sanitized; any matched route
    takes it from the route's own name; and a request without a
    [resolver_match] gets ['UNKNOWN']. *)
Theorem get_entity_name_falls_back_to_view_name
    (request : HttpRequest) (m : ResolverMatch)
    (Hm : resolver_match request = Some m)
    (Hu : Py.truthy_text (url_name m) = false) :
  get_entity_name request = sanitize (view_name m)
  /\ (forall request' m',
        resolver_match request' = Some m' ->
        get_entity_name request' = sanitize (route_name m'))
  /\ get_entity_name
       {| path_info := path_info request;
          method := method request;
          resolver_match := None;
          build_absolute_uri := build_absolute_uri request;
          wf_marks := wf_marks request |} = "UNKNOWN".
Proof.
  split; [|split].
  - rewrite (get_entity_name_matched _ _ Hm). f_equal.
    unfold route_name. destruct (url_name m) as [[|c n]|]; simpl in *;
      try reflexivity; discriminate.
  - intros request' m'. apply get_entity_name_matched.
  - reflexivity.
Qed.

Lemma get_entity_name_falls_back_to_view_name_witness :
  get_entity_name (with_route make_request unnamed_match) = "styling.views.make".
Proof.
  exact (proj1 (get_entity_name_falls_back_to_view_name
                  (with_route make_request unnamed_match) unnamed_match
                  eq_refl eq_refl)).
Defined.

(** ** Application tags *)

(** C8: [ApplicationTags(...)] raises exactly when [application] or
    [service] is missing or empty; when both are non-empty it returns an
    object whose five getters give back the five arguments, and each of
    the five public names is a property without a setter. *)
Theorem ApplicationTags_init_raises_iff_missing
    (a s c sh : option Py.pystr) (ct : option (list (string * string))) :
  ((exists msg, ApplicationTags_init a s c sh ct = Raise (AttributeError msg))
   <-> missing_or_empty a \/ missing_or_empty s)
  /\ (~ missing_or_empty a /\ ~ missing_or_empty s
      <-> exists t, ApplicationTags_init a s c sh ct = Ok t
                    /\ application t = a /\ service t = s /\ cluster t = c
                    /\ shard t = sh /\ custom_tags t = ct)
  /\ Forall (fun name => ApplicationTags_attribute name = Some ReadOnlyProperty)
       ["application"; "service"; "cluster"; "shard"; "custom_tags"].
Proof.
  rewrite <- !truthy_missing_or_empty.
  unfold ApplicationTags_init.
  destruct (Py.truthy a) eqn:Ea, (Py.truthy s) eqn:Es; simpl;
    (split; [|split]);
    try (repeat constructor; fail).
  all: try (split; [intros [msg H]; discriminate | intros [H|H]; discriminate]).
  all: try (split; [intros _; auto | intros _; eexists; reflexivity]).
  all: try (split; [intros [H1 H2]; congruence
                   | intros (t & H & _); discriminate]).
  split; [intros _ | intros _; split; congruence].
  eexists. split; [reflexivity|]. repeat split.
Qed.

(** The scenario of the specification: an identity without a service. *)
Example ApplicationTags_without_service :
  ApplicationTags_init (Some (Py.PyStr 1 "beachshirts")) None None None None
  = Raise (AttributeError
             ("Missing " ++ dquote ++ "service" ++ dquote
              ++ " parameter in ApplicationTags!")).
Proof. reflexivity. Qed.

(** ** The calls of the two hooks, as lists *)

Section Shape.

(** An enabled middleware, a request whose path matches a route, and a
    span for it. *)
Context (K : Constants) (resolve : string -> ResolverMatch).
Context (unmatched : string -> bool).
Context (settings : gmap string conf_value).
Context (r : WavefrontReporter) (t : ApplicationTags) (tr : DjangoTracing).
Context (request : HttpRequest) (response : HttpResponse).
Context (sp : Span) (timer clock : Z).
Hypothesis Hroute : unmatched (path_info request) = false.

Let self := MiddlewareEnabled (enabled_attrs K r t tr).
Let completed :=
  snd (process_response K resolve unmatched self request response (Some sp)
         timer clock).
Let response_metric_key :=
  get_metric_name (get_entity_name request) request (Some response).
Let request_metric_key :=
  get_metric_name_without_status (get_entity_name request) request.
Let shard_is_sentinel :=
  Py.is_ (Py.or_else (shard t) (NULL_TAG_VAL K)) (NULL_TAG_VAL K).
Let cluster_is_sentinel :=
  Py.is_ (Py.or_else (cluster t) (NULL_TAG_VAL K)) (NULL_TAG_VAL K).

Lemma counter_names_completed :
  counter_names completed
  = ([(response_metric_key ++ ".cumulative")%string]
     ++ (if is_error_status_code response
         then [request_metric_key; "response.errors";
               "response.errors.aggregated_per_source"]
         else [])
     ++ ["response.completed.aggregated_per_source"]
     ++ (if shard_is_sentinel then []
         else ["response.completed.aggregated_per_service"])
     ++ (if cluster_is_sentinel then []
         else ["response.completed.aggregated_per_application"]))%list.
Proof.
  subst completed self shard_is_sentinel cluster_is_sentinel.
  unfold process_response. rewrite Hroute.
  cbn [enabled_attrs SHARD CLUSTER application_tags].
  destruct (is_error_status_code response),
    (Py.truthy (shard t)), (Py.truthy (cluster t)),
    (Py.is_ (Py.or_else (shard t) (NULL_TAG_VAL K)) (NULL_TAG_VAL K)),
    (Py.is_ (Py.or_else (cluster t) (NULL_TAG_VAL K)) (NULL_TAG_VAL K)),
    (wf_marks request) as [[? ?]|];
    reflexivity.
Qed.

Lemma delta_names_completed :
  delta_names completed
  = ((if Py.truthy (shard t)
      then [(response_metric_key ++ ".aggregated_per_shard")%string] else [])
     ++ [(response_metric_key ++ ".aggregated_per_service")%string]
     ++ (if Py.truthy (cluster t)
         then [(response_metric_key ++ ".aggregated_per_cluster")%string] else [])
     ++ [(response_metric_key ++ ".aggregated_per_application")%string]
     ++ (if is_error_status_code response
         then (if Py.truthy (shard t)
               then ["response.errors.aggregated_per_shard"] else [])
              ++ ["response.errors.aggregated_per_service"]
              ++ (if Py.truthy (cluster t)
                  then ["response.errors.aggregated_per_cluster"] else [])
              ++ ["response.errors.aggregated_per_application"]
         else [])
     ++ (if shard_is_sentinel then []
         else ["response.completed.aggregated_per_shard"])
     ++ (if cluster_is_sentinel then []
         else ["response.completed.aggregated_per_cluster"]))%list.
Proof.
  subst completed self shard_is_sentinel cluster_is_sentinel.
  unfold process_response. rewrite Hroute.
  cbn [enabled_attrs SHARD CLUSTER application_tags].
  destruct (is_error_status_code response),
    (Py.truthy (shard t)), (Py.truthy (cluster t)),
    (Py.is_ (Py.or_else (shard t) (NULL_TAG_VAL K)) (NULL_TAG_VAL K)),
    (Py.is_ (Py.or_else (cluster t) (NULL_TAG_VAL K)) (NULL_TAG_VAL K)),
    (wf_marks request) as [[? ?]|];
    reflexivity.
Qed.

Let func_name := func_name_ (func (resolve (path_info request))).
Let module_name := func_module_ (func (resolve (path_info request))).
Let CLUSTER_ := Some (Py.or_else (cluster t) (NULL_TAG_VAL K)).
Let SERVICE_ := Some (Py.or_else (service t) (NULL_TAG_VAL K)).
Let SHARD_ := Some (Py.or_else (shard t) (NULL_TAG_VAL K)).
Let source := Some (WAVEFRONT_PROVIDED_SOURCE K).
Let complete_tags_map :=
  get_tags_map CLUSTER_ SERVICE_ SHARD_ (Some module_name) (Some func_name) None.
Let overall_aggregated_per_source_map :=
  get_tags_map CLUSTER_ SERVICE_ SHARD_ None None None.

Lemma counter_incs_completed :
  counter_incs completed
  = ([((response_metric_key ++ ".cumulative")%string, complete_tags_map)]
     ++ (if is_error_status_code response
         then [(request_metric_key, complete_tags_map);
               ("response.errors", complete_tags_map);
               ("response.errors.aggregated_per_source",
                overall_aggregated_per_source_map)]
         else [])
     ++ [("response.completed.aggregated_per_source",
          overall_aggregated_per_source_map)]
     ++ (if shard_is_sentinel then []
         else [("response.completed.aggregated_per_service",
                get_tags_map CLUSTER_ SERVICE_ None None None source)])
     ++ (if cluster_is_sentinel then []
         else [("response.completed.aggregated_per_application",
                get_tags_map None None None None None source)]))%list.
Proof.
  subst completed self shard_is_sentinel cluster_is_sentinel.
  unfold process_response. rewrite Hroute.
  cbn [enabled_attrs SHARD CLUSTER application_tags].
  destruct (is_error_status_code response),
    (Py.truthy (shard t)), (Py.truthy (cluster t)),
    (Py.is_ (Py.or_else (shard t) (NULL_TAG_VAL K)) (NULL_TAG_VAL K)),
    (Py.is_ (Py.or_else (cluster t) (NULL_TAG_VAL K)) (NULL_TAG_VAL K)),
    (wf_marks request) as [[? ?]|];
    reflexivity.
Qed.

Lemma delta_incs_completed :
  delta_incs completed
  = ((if Py.truthy (shard t)
      then [((response_metric_key ++ ".aggregated_per_shard")%string,
             get_tags_map CLUSTER_ SERVICE_ SHARD_
               (Some module_name) (Some func_name) source)]
      else [])
     ++ [((response_metric_key ++ ".aggregated_per_service")%string,
          get_tags_map CLUSTER_ SERVICE_ None
            (Some module_name) (Some func_name) source)]
     ++ (if Py.truthy (cluster t)
         then [((response_metric_key ++ ".aggregated_per_cluster")%string,
                get_tags_map CLUSTER_ None None
                  (Some module_name) (Some func_name) source)]
         else [])
     ++ [((response_metric_key ++ ".aggregated_per_application")%string,
          get_tags_map None None None
            (Some module_name) (Some func_name) source)]
     ++ (if is_error_status_code response
         then (if Py.truthy (shard t)
               then [("response.errors.aggregated_per_shard",
                      get_tags_map CLUSTER_ SERVICE_ SHARD_ None None source)]
               else [])
              ++ [("response.errors.aggregated_per_service",
                   get_tags_map CLUSTER_ SERVICE_ None None None source)]
              ++ (if Py.truthy (cluster t)
                  then [("response.errors.aggregated_per_cluster",
                         get_tags_map CLUSTER_ None None None None source)]
                  else [])
              ++ [("response.errors.aggregated_per_application",
                   get_tags_map None None None None None source)]
         else [])
     ++ (if shard_is_sentinel then []
         else [("response.completed.aggregated_per_shard",
                get_tags_map CLUSTER_ SERVICE_ SHARD_ None None source)])
     ++ (if cluster_is_sentinel then []
         else [("response.completed.aggregated_per_cluster",
                get_tags_map CLUSTER_ None None None None source)]))%list.
Proof.
  subst completed self shard_is_sentinel cluster_is_sentinel.
  unfold process_response. rewrite Hroute.
  cbn [enabled_attrs SHARD CLUSTER application_tags].
  destruct (is_error_status_code response),
    (Py.truthy (shard t)), (Py.truthy (cluster t)),
    (Py.is_ (Py.or_else (shard t) (NULL_TAG_VAL K)) (NULL_TAG_VAL K)),
    (Py.is_ (Py.or_else (cluster t) (NULL_TAG_VAL K)) (NULL_TAG_VAL K)),
    (wf_marks request) as [[? ?]|];
    reflexivity.
Qed.

Lemma gauge_updates_completed :
  gauge_updates completed
  = [ ((get_metric_name (get_entity_name request) request None
          ++ ".inflight")%string,
       get_tags_map None None None (Some module_name) (Some func_name) None,
       -1);
      ("total_requests.inflight",
       get_tags_map CLUSTER_ SERVICE_ SHARD_ None None None,
       -1) ].
Proof.
  subst completed self.
  unfold process_response. rewrite Hroute.
  cbn [enabled_attrs SHARD CLUSTER application_tags].
  destruct (is_error_status_code response),
    (Py.truthy (shard t)), (Py.truthy (cluster t)),
    (Py.is_ (Py.or_else (shard t) (NULL_TAG_VAL K)) (NULL_TAG_VAL K)),
    (Py.is_ (Py.or_else (cluster t) (NULL_TAG_VAL K)) (NULL_TAG_VAL K)),
    (wf_marks request) as [[? ?]|];
    reflexivity.
Qed.

Lemma gauge_updates_started view_func timer0 clock0 :
  gauge_updates
    (snd (process_view resolve settings self request view_func timer0 clock0))
  = [ ((get_metric_name (get_entity_name request) request None
          ++ ".inflight")%string,
       get_tags_map None None None (Some module_name) (Some func_name) None,
       1);
      ("total_requests.inflight",
       get_tags_map CLUSTER_ SERVICE_ SHARD_ None None None,
       1) ].
Proof.
  subst self. unfold process_view.
  cbn [enabled_attrs SHARD CLUSTER SERVICE tracing].
  destruct (_trace_all tr); reflexivity.
Qed.

Lemma process_view_request view_func timer0 clock0 :
  fst (process_view resolve settings self request view_func timer0 clock0)
  = {| path_info := path_info request;
       method := method request;
       resolver_match := resolver_match request;
       build_absolute_uri := build_absolute_uri request;
       wf_marks := Some (timer0, clock0) |}.
Proof.
  subst self. unfold process_view. cbn [enabled_attrs tracing].
  destruct (_trace_all tr); reflexivity.
Qed.

End Shape.

(** ** When [process_response] raises *)

Lemma instruments_true unmatched request sp :
  unmatched (path_info request) = false ->
  instruments unmatched request (Some sp) = true.
Proof. intros H. unfold instruments. rewrite H. reflexivity. Qed.

Lemma instruments_inv unmatched request span :
  instruments unmatched request span = true ->
  unmatched (path_info request) = false /\ exists sp, span = Some sp.
Proof.
  unfold instruments. destruct (unmatched (path_info request)); [discriminate|].
  destruct span as [sp|]; [eauto | discriminate].
Qed.

Lemma process_response_raises K resolve unmatched attrs request response
    span timer clock :
  instruments unmatched request span = false ->
  process_response K resolve unmatched (MiddlewareEnabled attrs) request
    response span timer clock
  = (Raise (if unmatched (path_info request)
            then Resolver404 (path_info request)
            else AttributeError
                   "'NoneType' object has no attribute 'set_tag'"),
     []).
Proof.
  unfold instruments, process_response.
  destruct (unmatched (path_info request)); [reflexivity|].
  destruct span; [discriminate | reflexivity].
Qed.

(** Splits on whether [process_response] raises: either the route matches
    and there is a span, or no call is made. *)
Ltac raises_or_runs unmatched request span :=
  let Hi := fresh "Hi" in
  let Hroute := fresh "Hroute" in
  let sp := fresh "sp" in
  destruct (instruments unmatched request span) eqn:Hi;
  [ destruct (instruments_inv _ _ _ Hi) as (Hroute & sp & ->)
  | rewrite ?(process_response_raises _ _ _ _ _ _ _ _ _ Hi); cbn [snd fst] ].

(** ** Metric names are told apart *)

Lemma count_app c a b :
  Py.count c (a ++ b) = (Py.count c a + Py.count c b)%nat.
Proof.
  induction a as [|d a IH]; [reflexivity|].
  simpl. rewrite IH. lia.
Qed.

(** A response metric key has at least three dots; the fixed names of the
    error and completion families have at most two. *)
Lemma response_key_dots entity_name request response suffix :
  (3 <= Py.count "."
          (get_metric_name entity_name request (Some response) ++ suffix))%nat.
Proof.
  unfold get_metric_name, Py.join, RESPONSE_PREFIX. cbn [app String.concat].
  rewrite !count_app. cbn [Py.count Ascii.eqb Bool.eqb]. lia.
Qed.

Lemma response_key_not_fixed entity_name request response suffix name :
  (Py.count "." name <= 2)%nat ->
  (get_metric_name entity_name request (Some response) ++ suffix)%string <> name.
Proof.
  intros H E. pose proof (response_key_dots entity_name request response suffix).
  rewrite E in *. lia.
Qed.

(** A request metric key starts with [req], a response key and the fixed
    names with [res]. *)
Lemma request_key_prefix entity_name request :
  String.prefix "req" (get_metric_name_without_status entity_name request) = true.
Proof. reflexivity. Qed.

Lemma response_key_prefix entity_name request response suffix :
  String.prefix "req"
    (get_metric_name entity_name request (Some response) ++ suffix) = false.
Proof. reflexivity. Qed.

Lemma request_key_not_response entity_name request name :
  String.prefix "req" name = false ->
  get_metric_name_without_status entity_name request <> name.
Proof.
  intros H E. rewrite <- E, request_key_prefix in H. discriminate.
Qed.

Lemma is_error_status_code_range response :
  is_error_status_code response = true <-> 400 <= status_code response <= 599.
Proof.
  unfold is_error_status_code. rewrite andb_true_iff, !Z.leb_le. tauto.
Qed.

Lemma or_else_sentinel x d :
  Py.truthy x = false -> Py.is_ (Py.or_else x d) d = true.
Proof.
  unfold Py.is_. destruct x as [[i [|c s]]|]; simpl; intros H;
    try discriminate; apply Nat.eqb_refl.
Qed.

(** Closes a goal from an equation between two metric names that differ. *)
Ltac names_differ H :=
  exfalso;
  first
    [ discriminate H
    | apply String.app_inj in H; discriminate H
    | symmetry in H; apply String.app_inj in H; discriminate H
    | revert H; apply response_key_not_fixed; vm_compute; lia
    | symmetry in H; revert H; apply response_key_not_fixed; vm_compute; lia
    | revert H; apply request_key_not_response; reflexivity
    | symmetry in H; revert H; apply request_key_not_response; reflexivity ].

(** Splits a membership hypothesis in an explicit list into its cases. *)
Ltac in_cases :=
  repeat match goal with
         | H : In _ (_ ++ _)%list |- _ => apply in_app_or in H
         | H : In _ (_ :: _) |- _ => destruct H as [H|H]
         | H : In _ [] |- _ => destruct H
         | H : In _ (if ?b then _ else _) |- _ => destruct b eqn:?
         | H : _ \/ _ |- _ => destruct H as [H|H]
         | H : False |- _ => destruct H
         end.

(** Splits a conjunction of equivalences into its implications. *)
Ltac split_iffs :=
  repeat match goal with
         | |- _ /\ _ => split
         | |- _ <-> _ => split
         end.

(** Finds an element in an explicit list. *)
Ltac in_list :=
  repeat match goal with
         | |- context [if ?b then _ else _] => destruct b eqn:?
         end;
  cbn [app In]; auto 20.

(** ** Error path and completion path *)

(** C4: when [process_response] gets past [resolve] and [span.set_tag],
    that is, when the path of the request matches a route and the tracer
    holds a span for it, the error-path counters are incremented exactly
    when the status is in [400, 599] (the shard and cluster ones also need
    their dimension), the counters of the completion path are incremented
    whatever the status, and outside the range every counter incremented
    is one of the completion path.  When the path matches no route, or
    there is no span, it raises and no counter of either path is
    incremented, whatever the status. *)
Theorem error_path_iff_status_in_400_599
    (K : Constants) (resolve : string -> ResolverMatch)
    (unmatched : string -> bool)
    (r : WavefrontReporter) (t : ApplicationTags) (tr : DjangoTracing)
    (request : HttpRequest) (response : HttpResponse) (span : option Span)
    (timer clock : Z) :
  let self := MiddlewareEnabled (enabled_attrs K r t tr) in
  let completed :=
    snd (process_response K resolve unmatched self request response span
           timer clock) in
  let response_metric_key :=
    get_metric_name (get_entity_name request) request (Some response) in
  let request_metric_key :=
    get_metric_name_without_status (get_entity_name request) request in
  let in_range := 400 <= status_code response <= 599 in
  let runs := instruments unmatched request span = true in
  (is_error_status_code response = true <-> in_range)
  /\ (In request_metric_key (counter_names completed) <-> runs /\ in_range)
  /\ (In "response.errors" (counter_names completed) <-> runs /\ in_range)
  /\ (In "response.errors.aggregated_per_source" (counter_names completed)
      <-> runs /\ in_range)
  /\ (In "response.errors.aggregated_per_service" (delta_names completed)
      <-> runs /\ in_range)
  /\ (In "response.errors.aggregated_per_application" (delta_names completed)
      <-> runs /\ in_range)
  /\ (In "response.errors.aggregated_per_shard" (delta_names completed)
      <-> runs /\ in_range /\ Py.truthy (shard t) = true)
  /\ (In "response.errors.aggregated_per_cluster" (delta_names completed)
      <-> runs /\ in_range /\ Py.truthy (cluster t) = true)
  /\ (In (response_metric_key ++ ".cumulative") (counter_names completed)
      <-> runs)
  /\ (In (response_metric_key ++ ".aggregated_per_service")
        (delta_names completed) <-> runs)
  /\ (In (response_metric_key ++ ".aggregated_per_application")
        (delta_names completed) <-> runs)
  /\ (In "response.completed.aggregated_per_source" (counter_names completed)
      <-> runs)
  /\ (~ in_range ->
      Forall
        (fun name =>
           In name
             (map (String.append response_metric_key)
                [".cumulative"; ".aggregated_per_shard";
                 ".aggregated_per_service"; ".aggregated_per_cluster";
                 ".aggregated_per_application"])
           \/ In name
                ["response.completed.aggregated_per_source";
                 "response.completed.aggregated_per_shard";
                 "response.completed.aggregated_per_service";
                 "response.completed.aggregated_per_cluster";
                 "response.completed.aggregated_per_application"])
        (counter_names completed ++ delta_names completed)%list).
Proof.
  intros self completed response_metric_key request_metric_key in_range runs.
  subst self completed runs.
  raises_or_runs unmatched request span.
  2: { split; [apply is_error_status_code_range|].
       cbn [counter_names delta_names app In].
       repeat split; try tauto; try discriminate;
         try (intros [H _]; discriminate H).
       intros _. constructor. }
  rewrite (counter_names_completed K resolve unmatched r t tr request response
             sp timer clock Hroute),
    (delta_names_completed K resolve unmatched r t tr request response
       sp timer clock Hroute).
  fold response_metric_key request_metric_key.
  subst in_range. rewrite <- is_error_status_code_range.
  destruct (is_error_status_code response) eqn:Eerr.
  - split_iffs; intros; try discriminate; try tauto; try (in_list; fail).
    all: try (in_cases; subst; repeat split; try reflexivity;
              try discriminate;
              match goal with H : _ = _ |- _ => names_differ H end).
    all: try match goal with
             | H : _ /\ _ /\ ?b = true |- _ =>
                 let E := fresh in destruct H as (_ & _ & E); rewrite E
             end.
    all: in_list.
  - split_iffs; intros; try discriminate; try tauto; try (in_list; fail).
    all: try (in_cases; subst; repeat split; try reflexivity;
              try discriminate;
              match goal with H : _ = _ |- _ => names_differ H end).
    all: try match goal with
             | H : _ /\ false = true |- _ =>
                 let E := fresh in destruct H as (_ & E); discriminate E
             | H : _ /\ false = true /\ _ |- _ =>
                 let E := fresh in destruct H as (_ & E & _); discriminate E
             end.
    apply List.Forall_forall. intros name Hin.
    in_cases; subst; cbn [map In]; auto 20.
Qed.

(** A 404 for a path that matches no route: [resolve] raises and no
    counter, gauge or histogram is touched. *)
Example nowhere_404_makes_no_call :
  process_response sample_constants sample_resolve sample_unmatched
    (sample_middleware beachshirts) nowhere_request
    {| status_code := 404 |} None 15 26
  = (Raise (Resolver404 "/nowhere"), []).
Proof. vm_compute. reflexivity. Qed.

(** A 200 on the route [make] of a middleware whose tracing does not
    trace every request: [process_view] applies no tracing, there is no
    span, and [span.set_tag] raises before any counter is incremented. *)
Example untraced_200_makes_no_call :
  let self :=
    MiddlewareEnabled
      (enabled_attrs sample_constants sample_reporter beachshirts
         {| _trace_all := false |}) in
  let view :=
    process_view sample_resolve (settings_of beachshirts) self make_request
      make_view 5 6 in
  fst view = make_request_started
  /\ tracing_calls (snd view) = []
  /\ process_response sample_constants sample_resolve sample_unmatched self
       (fst view) {| status_code := 200 |} None 15 26
     = (Raise (AttributeError "'NoneType' object has no attribute 'set_tag'"),
        []).
Proof. repeat split. Qed.

(** ** Shard and cluster rollups *)

Lemma truthy_not_missing x :
  Py.truthy x = true <-> ~ missing_or_empty x.
Proof.
  rewrite <- truthy_missing_or_empty.
  destruct (Py.truthy x); split; intros H; congruence.
Qed.

Lemma or_else_configured K x :
  Py.is_ (Py.or_else x (NULL_TAG_VAL K)) (NULL_TAG_VAL K) = false
  <-> configured K x.
Proof.
  unfold configured, Py.or_else.
  destruct x as [s|].
  - destruct (Py.truthy_string (Py.str_val s)).
    + tauto.
    + unfold Py.is_. rewrite Nat.eqb_refl.
      split; [discriminate | intros [H _]; discriminate].
  - unfold Py.is_. rewrite Nat.eqb_refl. split; [discriminate | tauto].
Qed.

(** C2, as stated, fails, on a request that went through [process_view]
    with tracing applied: with the shard set to the empty string the shard
    is not null, and no [aggregated_per_shard] counter is incremented;
    with the shard set to the sentinel object the shard is not null, the
    per-status [aggregated_per_shard] counter is incremented, and the
    [response.completed] one is not. *)
Lemma shard_counter_omitted_for_blank_shard :
  let completed t :=
    snd (process_response sample_constants sample_resolve sample_unmatched
           (sample_middleware t) make_request_started
           {| status_code := 200 |} (Some ActiveSpan) 15 26) in
  (shard beachshirts_blank_shard <> None
   /\ fst (process_response sample_constants sample_resolve sample_unmatched
             (sample_middleware beachshirts_blank_shard) make_request_started
             {| status_code := 200 |} (Some ActiveSpan) 15 26)
      = Ok {| status_code := 200 |}
   /\ existsb (String.eqb "response.make.GET.200.aggregated_per_service")
        (delta_names (completed beachshirts_blank_shard)) = true
   /\ existsb (String.eqb "response.make.GET.200.aggregated_per_shard")
        (delta_names (completed beachshirts_blank_shard)) = false
   /\ existsb (String.eqb "response.completed.aggregated_per_shard")
        (delta_names (completed beachshirts_blank_shard)) = false)
  /\ (shard beachshirts_sentinel_shard <> None
      /\ existsb (String.eqb "response.make.GET.200.aggregated_per_shard")
           (delta_names (completed beachshirts_sentinel_shard)) = true
      /\ existsb (String.eqb "response.completed.aggregated_per_shard")
           (delta_names (completed beachshirts_sentinel_shard)) = false).
Proof.
  split; (split; [discriminate | repeat split; vm_compute; reflexivity]).
Qed.

(** C2, amended: for a request whose path matches a route and for which
    the tracer holds a span, in the per-status rollups and in the
    [response.errors] rollups the [aggregated_per_shard] (resp.
    [aggregated_per_cluster]) delta counter is incremented iff the shard
    (resp. cluster) is neither null nor empty; in the [response.completed]
    rollups it is incremented iff, besides, the value is not the null-tag
    sentinel object itself. *)
Theorem shard_cluster_rollups_iff_dimension_set
    (K : Constants) (resolve : string -> ResolverMatch)
    (unmatched : string -> bool)
    (r : WavefrontReporter) (t : ApplicationTags) (tr : DjangoTracing)
    (request : HttpRequest) (response : HttpResponse) (sp : Span)
    (timer clock : Z)
    (Hroute : unmatched (path_info request) = false) :
  let self := MiddlewareEnabled (enabled_attrs K r t tr) in
  let completed :=
    snd (process_response K resolve unmatched self request response (Some sp)
           timer clock) in
  let response_metric_key :=
    get_metric_name (get_entity_name request) request (Some response) in
  (In (response_metric_key ++ ".aggregated_per_shard") (delta_names completed)
   <-> ~ missing_or_empty (shard t))
  /\ (In (response_metric_key ++ ".aggregated_per_cluster")
        (delta_names completed)
      <-> ~ missing_or_empty (cluster t))
  /\ (In "response.errors.aggregated_per_shard" (delta_names completed)
      <-> is_error_status_code response = true
          /\ ~ missing_or_empty (shard t))
  /\ (In "response.errors.aggregated_per_cluster" (delta_names completed)
      <-> is_error_status_code response = true
          /\ ~ missing_or_empty (cluster t))
  /\ (In "response.completed.aggregated_per_shard" (delta_names completed)
      <-> configured K (shard t))
  /\ (In "response.completed.aggregated_per_cluster" (delta_names completed)
      <-> configured K (cluster t)).
Proof.
  intros self completed response_metric_key. subst self completed.
  rewrite (delta_names_completed K resolve unmatched r t tr request response
             sp timer clock Hroute).
  fold response_metric_key.
  rewrite <- !truthy_not_missing, <- !or_else_configured.
  split_iffs; intros H.
  all: try (in_cases; subst; try (split; reflexivity);
            try reflexivity; try discriminate;
            match goal with H : _ = _ |- _ => names_differ H end).
  all: try match goal with
           | H : _ = true /\ _ = true |- _ =>
               let H1 := fresh in let H2 := fresh in
               destruct H as [H1 H2]; rewrite H1, H2
           | H : _ = _ |- _ => rewrite H
           end.
  all: in_list.
Qed.

Lemma shard_cluster_rollups_iff_dimension_set_witness :
  In "response.make.GET.503.aggregated_per_shard"
    (delta_names
       (snd (process_response sample_constants sample_resolve sample_unmatched
               (MiddlewareEnabled
                  (enabled_attrs sample_constants sample_reporter
                     beachshirts_sentinel_shard sample_tracing))
               make_request_started {| status_code := 503 |}
               (Some ActiveSpan) 15 26)))
  <-> ~ missing_or_empty (shard beachshirts_sentinel_shard).
Proof.
  exact (proj1 (shard_cluster_rollups_iff_dimension_set sample_constants
                  sample_resolve sample_unmatched sample_reporter
                  beachshirts_sentinel_shard sample_tracing
                  make_request_started {| status_code := 503 |}
                  ActiveSpan 15 26 eq_refl)).
Defined.

(** ** Completion counters *)

(** C3: when [process_response] gets past [resolve] and [span.set_tag]
    (the path matches a route, the tracer holds a span),
    [response.completed.aggregated_per_source] is incremented, the
    per-shard delta counter and the per-service counter are incremented
    together, exactly when the shard is configured, and the per-cluster
    delta counter and the per-application counter together, exactly when
    the cluster is configured; configured meaning that the field holds a
    non-empty string that is not the null-tag sentinel object.  When the
    path matches no route or there is no span, it raises and none of the
    five is incremented: not every completed request is counted. *)
Theorem completed_counters_gated_in_pairs
    (K : Constants) (resolve : string -> ResolverMatch)
    (unmatched : string -> bool)
    (r : WavefrontReporter) (t : ApplicationTags) (tr : DjangoTracing)
    (request : HttpRequest) (response : HttpResponse) (span : option Span)
    (timer clock : Z) :
  let self := MiddlewareEnabled (enabled_attrs K r t tr) in
  let completed :=
    snd (process_response K resolve unmatched self request response span
           timer clock) in
  let runs := instruments unmatched request span = true in
  (In "response.completed.aggregated_per_source" (counter_names completed)
   <-> runs)
  /\ (In "response.completed.aggregated_per_shard" (delta_names completed)
      <-> runs /\ configured K (shard t))
  /\ (In "response.completed.aggregated_per_service" (counter_names completed)
      <-> runs /\ configured K (shard t))
  /\ (In "response.completed.aggregated_per_cluster" (delta_names completed)
      <-> runs /\ configured K (cluster t))
  /\ (In "response.completed.aggregated_per_application"
        (counter_names completed)
      <-> runs /\ configured K (cluster t)).
Proof.
  intros self completed runs. subst self completed runs.
  raises_or_runs unmatched request span.
  2: { cbn [counter_names delta_names In].
       repeat split; try tauto; try discriminate;
         intros [H _]; discriminate H. }
  rewrite (counter_names_completed K resolve unmatched r t tr request response
             sp timer clock Hroute),
    (delta_names_completed K resolve unmatched r t tr request response
       sp timer clock Hroute).
  rewrite <- !or_else_configured.
  split_iffs; intros H.
  all: try (in_cases; subst; try (split; reflexivity);
            try reflexivity; try discriminate;
            match goal with H : _ = _ |- _ => names_differ H end).
  all: try match goal with
           | H : _ /\ _ = false |- _ =>
               let E := fresh in destruct H as [_ E]; rewrite E
           end.
  all: in_list.
Qed.

(** ** The errors counter of a route *)

Lemma length_app a b :
  String.length (a ++ b) = (String.length a + String.length b)%nat.
Proof. induction a as [|c a IH]; simpl; [reflexivity | rewrite IH; reflexivity]. Qed.

Lemma app_nonempty_neq a b : b <> "" -> (a ++ b)%string <> a.
Proof.
  intros Hb E. apply (f_equal String.length) in E. rewrite length_app in E.
  destruct b; [congruence | simpl in E; lia].
Qed.

Lemma request_key_suffix_not_response entity_name request suffix name :
  String.prefix "req" name = false ->
  (get_metric_name_without_status entity_name request ++ suffix)%string <> name.
Proof.
  intros H E. rewrite <- E in H.
  change (String.prefix "req"
            (get_metric_name_without_status entity_name request ++ suffix))
    with true in H.
  discriminate.
Qed.

(** C1: on an error status [process_response] increments, at full tag
    scope, the counter [response.errors] and a counter named
    [<request-prefix>.<entity>.<method>], the result of
    [get_metric_name_without_status] as it stands, provided it gets past
    [resolve] and [span.set_tag]; on no request, response or span is a
    counter named [<request-prefix>.<entity>.<method>.errors] ever
    incremented. *)
Theorem route_errors_counter_has_no_errors_suffix
    (K : Constants) (resolve : string -> ResolverMatch)
    (unmatched : string -> bool)
    (r : WavefrontReporter) (t : ApplicationTags) (tr : DjangoTracing)
    (request : HttpRequest) (response : HttpResponse) (span : option Span)
    (timer clock : Z) :
  let self := MiddlewareEnabled (enabled_attrs K r t tr) in
  let completed :=
    snd (process_response K resolve unmatched self request response span
           timer clock) in
  let request_metric_key :=
    ("request." ++ get_entity_name request ++ "." ++ method request)%string in
  let complete_tags_map :=
    get_tags_map
      (Some (Py.or_else (cluster t) (NULL_TAG_VAL K)))
      (Some (Py.or_else (service t) (NULL_TAG_VAL K)))
      (Some (Py.or_else (shard t) (NULL_TAG_VAL K)))
      (Some (func_module_ (func (resolve (path_info request)))))
      (Some (func_name_ (func (resolve (path_info request)))))
      None in
  (In (request_metric_key, complete_tags_map) (counter_incs completed)
   <-> is_error_status_code response = true
       /\ instruments unmatched request span = true)
  /\ (In ("response.errors", complete_tags_map) (counter_incs completed)
      <-> is_error_status_code response = true
          /\ instruments unmatched request span = true)
  /\ ~ In (request_metric_key ++ ".errors")%string
         (counter_names completed ++ delta_names completed)%list.
Proof.
  intros self completed request_metric_key complete_tags_map.
  subst self completed.
  raises_or_runs unmatched request span.
  2: { cbn [counter_incs counter_names delta_names app In].
       repeat split; try tauto; intros [_ H]; discriminate H. }
  rewrite (counter_incs_completed K resolve unmatched r t tr request response
             sp timer clock Hroute),
    (counter_names_completed K resolve unmatched r t tr request response
       sp timer clock Hroute),
    (delta_names_completed K resolve unmatched r t tr request response
       sp timer clock Hroute).
  change request_metric_key
    with (get_metric_name_without_status (get_entity_name request) request).
  fold complete_tags_map.
  split; [|split].
  - split; intros H.
    + in_cases; subst; try (split; reflexivity);
        match goal with
        | H : (_, _) = (_, _) |- _ =>
            apply (f_equal fst) in H; cbn [fst] in H; names_differ H
        end.
    + destruct H as [H _]. rewrite H. in_list.
  - split; intros H.
    + in_cases; subst; try (split; reflexivity);
        match goal with
        | H : (_, _) = (_, _) |- _ =>
            apply (f_equal fst) in H; cbn [fst] in H; names_differ H
        end.
    + destruct H as [H _]. rewrite H. in_list.
  - intros H. in_cases.
    all: try (symmetry in H; revert H;
              apply request_key_suffix_not_response; reflexivity).
    symmetry in H. revert H. apply app_nonempty_neq. discriminate.
Qed.

(** The scenario of the specification: route [make], [GET], status 503,
    application [beachshirts] without cluster or shard, on a request that
    went through [process_view] with tracing applied. *)
Example make_503_counters :
  let completed :=
    snd (process_response sample_constants sample_resolve sample_unmatched
           (sample_middleware beachshirts) make_request_started
           {| status_code := 503 |} (Some ActiveSpan) 15 26) in
  counter_names completed
  = ["response.make.GET.503.cumulative"; "request.make.GET";
     "response.errors"; "response.errors.aggregated_per_source";
     "response.completed.aggregated_per_source"]
  /\ delta_names completed
     = ["response.make.GET.503.aggregated_per_service";
        "response.make.GET.503.aggregated_per_application";
        "response.errors.aggregated_per_service";
        "response.errors.aggregated_per_application"].
Proof. split; vm_compute; reflexivity. Qed.

(** ** The null-tag sentinel in tag lists and tag sets *)

Lemma lookup_set_if_truthy key value (m : gmap string string) key' :
  set_if_truthy key value m !! key'
  = if decide (key = key')
    then (if Py.truthy_text value then value else m !! key')
    else m !! key'.
Proof.
  unfold set_if_truthy, Py.truthy_text.
  destruct value as [v|]; [destruct (Py.truthy_string v)|];
    rewrite ?lookup_insert; case_decide; subst; reflexivity.
Qed.

Lemma truthy_text_str_val x : Py.truthy_text (Py.str_val <$> x) = Py.truthy x.
Proof. destruct x; reflexivity. Qed.

Lemma get_tags_map_cluster c s sh m f src :
  get_tags_map c s sh m f src !! "cluster"
  = if Py.truthy c then Py.str_val <$> c else None.
Proof.
  unfold get_tags_map. rewrite !lookup_set_if_truthy.
  repeat (case_decide; [discriminate|]).
  case_decide; [|congruence].
  rewrite truthy_text_str_val, lookup_empty. reflexivity.
Qed.

Lemma get_tags_map_shard c s sh m f src :
  get_tags_map c s sh m f src !! "shard"
  = if Py.truthy sh then Py.str_val <$> sh else None.
Proof.
  unfold get_tags_map. rewrite !lookup_set_if_truthy.
  repeat (case_decide; [discriminate|]).
  case_decide; [|congruence].
  rewrite truthy_text_str_val.
  destruct (Py.truthy sh); [reflexivity|].
  repeat (case_decide; [discriminate|]). apply lookup_empty.
Qed.

Lemma or_else_missing x d : missing_or_empty x -> Py.or_else x d = d.
Proof.
  destruct x as [[i [|c s]]|]; simpl; intros H;
    try reflexivity; discriminate.
Qed.

(** C6, as stated, fails: with neither cluster nor shard, on a request
    that went through [process_view] with tracing applied, the tag sets of
    these calls of [process_response] bind the shard key, and the cluster
    key, to the sentinel. *)
Lemma absent_dimension_tagged_with_sentinel :
  let completed :=
    snd (process_response sample_constants sample_resolve sample_unmatched
           (sample_middleware beachshirts) make_request_started
           {| status_code := 200 |} (Some ActiveSpan) 15 26) in
  cluster beachshirts = None /\ shard beachshirts = None
  /\ map call_key (List.filter (carries_tag "shard" "none") completed)
     = [Some "total_requests.inflight";
        Some "response.make.GET.200.cumulative";
        Some "response.completed.aggregated_per_source";
        Some "response.make.GET.200.latency";
        Some "response.make.GET.200.cpu_ns"]
  /\ map call_key (List.filter (carries_tag "cluster" "none") completed)
     = [Some "total_requests.inflight";
        Some "response.make.GET.200.cumulative";
        Some "response.make.GET.200.aggregated_per_service";
        Some "response.completed.aggregated_per_source";
        Some "response.make.GET.200.latency";
        Some "response.make.GET.200.cpu_ns"].
Proof. repeat split; vm_compute; reflexivity. Qed.

(** C6, amended: for a request whose path matches a route and for which
    the tracer holds a span, and a non-empty sentinel: when the cluster
    (resp. shard) is null or empty, [get_as_list] binds the cluster (resp.
    shard) key to the null-tag sentinel, and so does the tag set of every
    counter and delta counter [process_response] increments, except the
    scopes that leave the dimension out whatever its value, the
    per-application ones for the cluster and the per-service, per-cluster
    and per-application ones for the shard; the full-scope and the
    per-source counters are among those that carry it.  What is left out
    for an absent dimension is the per-cluster (resp. per-shard) delta
    counter, not the tag key. *)
Theorem sentinel_in_tag_list_and_tag_sets
    (K : Constants) (resolve : string -> ResolverMatch)
    (unmatched : string -> bool)
    (r : WavefrontReporter) (t : ApplicationTags) (tr : DjangoTracing)
    (request : HttpRequest) (response : HttpResponse) (sp : Span)
    (timer clock : Z)
    (Hroute : unmatched (path_info request) = false)
    (Hnull : Py.truthy_string (Py.str_val (NULL_TAG_VAL K)) = true) :
  let self := MiddlewareEnabled (enabled_attrs K r t tr) in
  let completed :=
    snd (process_response K resolve unmatched self request response (Some sp)
           timer clock) in
  let response_metric_key :=
    get_metric_name (get_entity_name request) request (Some response) in
  let null := Py.str_val (NULL_TAG_VAL K) in
  let rollups := (counter_incs completed ++ delta_incs completed)%list in
  (missing_or_empty (cluster t) ->
   In (CLUSTER_TAG_KEY K, Some (NULL_TAG_VAL K)) (get_as_list K t)
   /\ List.Forall
        (fun nt : string * gmap string string =>
           snd nt !! "cluster" = Some null
           \/ snd nt !! "cluster" = None
              /\ In (fst nt)
                   [(response_metric_key ++ ".aggregated_per_application")%string;
                    "response.errors.aggregated_per_application";
                    "response.completed.aggregated_per_application"])
        rollups
   /\ (exists tags,
         In ((response_metric_key ++ ".cumulative")%string, tags)
           (counter_incs completed)
         /\ tags !! "cluster" = Some null)
   /\ (exists tags,
         In ("response.completed.aggregated_per_source", tags)
           (counter_incs completed)
         /\ tags !! "cluster" = Some null)
   /\ (exists tags,
         In ((response_metric_key ++ ".aggregated_per_service")%string, tags)
           (delta_incs completed)
         /\ tags !! "cluster" = Some null)
   /\ ~ In (response_metric_key ++ ".aggregated_per_cluster")%string
          (delta_names completed))
  /\ (missing_or_empty (shard t) ->
      In (SHARD_TAG_KEY K, Some (NULL_TAG_VAL K)) (get_as_list K t)
      /\ List.Forall
           (fun nt : string * gmap string string =>
              snd nt !! "shard" = Some null
              \/ snd nt !! "shard" = None
                 /\ In (fst nt)
                      [(response_metric_key ++ ".aggregated_per_service")%string;
                       (response_metric_key ++ ".aggregated_per_cluster")%string;
                       (response_metric_key ++ ".aggregated_per_application")%string;
                       "response.errors.aggregated_per_service";
                       "response.errors.aggregated_per_cluster";
                       "response.errors.aggregated_per_application";
                       "response.completed.aggregated_per_service";
                       "response.completed.aggregated_per_cluster";
                       "response.completed.aggregated_per_application"])
           rollups
      /\ (exists tags,
            In ((response_metric_key ++ ".cumulative")%string, tags)
              (counter_incs completed)
            /\ tags !! "shard" = Some null)
      /\ (exists tags,
            In ("response.completed.aggregated_per_source", tags)
              (counter_incs completed)
            /\ tags !! "shard" = Some null)
      /\ ~ In (response_metric_key ++ ".aggregated_per_shard")%string
             (delta_names completed)).
Proof.
  intros self completed response_metric_key null rollups.
  assert (Hn : Py.truthy (Some (NULL_TAG_VAL K)) = true) by exact Hnull.
  subst rollups self completed.
  rewrite (counter_incs_completed K resolve unmatched r t tr request response
             sp timer clock Hroute),
    (delta_incs_completed K resolve unmatched r t tr request response
       sp timer clock Hroute),
    (delta_names_completed K resolve unmatched r t tr request response
       sp timer clock Hroute).
  fold response_metric_key.
  split; intros Hmiss.
  - pose proof (proj2 (truthy_missing_or_empty _) Hmiss) as Hfalse.
    rewrite (or_else_missing _ (NULL_TAG_VAL K) Hmiss).
    split; [|split; [|repeat split]].
    + unfold get_as_list.
      rewrite (or_else_missing _ (NULL_TAG_VAL K) Hmiss).
      cbn [In]. auto.
    + apply List.Forall_forall. intros [name tags] Hin.
      apply in_app_or in Hin. cbn [fst snd].
      destruct Hin as [Hin|Hin]; in_cases;
        match goal with
        | H : (_, _) = (_, _) |- _ =>
            apply pair_equal_spec in H; destruct H as [<- <-]
        end;
        rewrite get_tags_map_cluster;
        first [ left; rewrite Hn; reflexivity
              | right; split; [reflexivity | cbn [In]; auto 10] ].
    + eexists. split; [in_list|].
      rewrite get_tags_map_cluster, Hn. reflexivity.
    + eexists. split; [in_list|].
      rewrite get_tags_map_cluster, Hn. reflexivity.
    + eexists. split; [rewrite Hfalse; in_list|].
      rewrite get_tags_map_cluster, Hn. reflexivity.
    + rewrite Hfalse. intros H.
      in_cases; match goal with H : _ = _ |- _ => names_differ H end.
  - pose proof (proj2 (truthy_missing_or_empty _) Hmiss) as Hfalse.
    rewrite (or_else_missing _ (NULL_TAG_VAL K) Hmiss).
    split; [|split; [|repeat split]].
    + unfold get_as_list.
      rewrite (or_else_missing _ (NULL_TAG_VAL K) Hmiss).
      cbn [In]. auto.
    + apply List.Forall_forall. intros [name tags] Hin.
      apply in_app_or in Hin. cbn [fst snd].
      destruct Hin as [Hin|Hin]; in_cases;
        match goal with
        | H : (_, _) = (_, _) |- _ =>
            apply pair_equal_spec in H; destruct H as [<- <-]
        end;
        rewrite get_tags_map_shard;
        first [ left; rewrite Hn; reflexivity
              | right; split; [reflexivity | cbn [In]; auto 20] ].
    + eexists. split; [in_list|].
      rewrite get_tags_map_shard, Hn. reflexivity.
    + eexists. split; [in_list|].
      rewrite get_tags_map_shard, Hn. reflexivity.
    + rewrite Hfalse. intros H.
      in_cases; match goal with H : _ = _ |- _ => names_differ H end.
Qed.

Lemma sentinel_in_tag_list_and_tag_sets_witness :
  let completed :=
    snd (process_response sample_constants sample_resolve sample_unmatched
           (MiddlewareEnabled
              (enabled_attrs sample_constants sample_reporter beachshirts
                 sample_tracing))
           make_request_started {| status_code := 503 |}
           (Some ActiveSpan) 15 26) in
  (In ("cluster", Some (Py.PyStr 0 "none"))
     (get_as_list sample_constants beachshirts)
   /\ In ("shard", Some (Py.PyStr 0 "none"))
        (get_as_list sample_constants beachshirts))
  /\ List.Forall
       (fun nt : string * gmap string string =>
          snd nt !! "cluster" = Some "none"
          \/ snd nt !! "cluster" = None
             /\ In (fst nt)
                  ["response.make.GET.503.aggregated_per_application";
                   "response.errors.aggregated_per_application";
                   "response.completed.aggregated_per_application"])
       (counter_incs completed ++ delta_incs completed)%list
  /\ (exists tags,
        In ("response.completed.aggregated_per_source", tags)
          (counter_incs completed)
        /\ tags !! "shard" = Some "none").
Proof.
  pose proof (sentinel_in_tag_list_and_tag_sets sample_constants sample_resolve
                sample_unmatched sample_reporter beachshirts sample_tracing
                make_request_started {| status_code := 503 |} ActiveSpan
                15 26 eq_refl eq_refl) as [Hc Hs].
  specialize (Hc I). specialize (Hs I).
  split; [split; [exact (proj1 Hc) | exact (proj1 Hs)]|].
  split; [exact (proj1 (proj2 Hc))|].
  exact (proj1 (proj2 (proj2 (proj2 Hs)))).
Defined.

(** ** Inflight gauges *)

Lemma gauge_value_update registry key tags val key' tags' :
  gauge_value (update_gauge registry key tags val) key' tags'
  = gauge_value registry key' tags'
    + (if decide ((key, tags) = (key', tags')) then val else 0).
Proof.
  unfold gauge_value, update_gauge. cbn [gauges].
  rewrite lookup_insert. case_decide as E.
  - injection E as -> ->. reflexivity.
  - lia.
Qed.

Lemma gauge_value_run_calls cs : forall registry key tags,
  gauge_value (run_calls registry cs) key tags
  = gauge_value registry key tags + gauge_change (gauge_updates cs) key tags.
Proof.
  induction cs as [|c cs IH]; intros registry key tags.
  - simpl. lia.
  - change (run_calls registry (c :: cs))
      with (run_calls (run_call registry c) cs).
    rewrite IH. destruct c; cbn [gauge_updates gauge_change run_call];
      try (unfold gauge_value; cbn [gauges]; lia).
    rewrite gauge_value_update. lia.
Qed.

Lemma gauge_updates_app cs1 cs2 :
  gauge_updates (cs1 ++ cs2) = (gauge_updates cs1 ++ gauge_updates cs2)%list.
Proof.
  induction cs1 as [|c cs1 IH]; [reflexivity|].
  destruct c; cbn [app gauge_updates]; rewrite ?IH; reflexivity.
Qed.

(** C5: [process_view] updates the gauge
    [<request-prefix>.<entity>.<method>.inflight] and the gauge
    [total_requests.inflight] by +1 each, and each then reads one more.
    When [process_response] on the same request has a span and a path
    that matches a route, it updates the same two keys, with the same tag
    sets, by -1 each, these are all the gauge updates, and every gauge
    reads the same after the completion as before the start.  When the
    tracer holds no span for the request, as after a [process_view] that
    did not apply tracing, [process_response] raises before the two
    decrements, and both gauges stay one higher. *)
Theorem inflight_gauges_net_zero
    (K : Constants) (resolve : string -> ResolverMatch)
    (unmatched : string -> bool)
    (settings : gmap string conf_value)
    (r : WavefrontReporter) (t : ApplicationTags) (tr : DjangoTracing)
    (request : HttpRequest) (view_func : ViewFunc) (response : HttpResponse)
    (sp : Span)
    (timer0 clock0 timer1 clock1 : Z) (registry : TaggedRegistry) :
  let self := MiddlewareEnabled (enabled_attrs K r t tr) in
  let view := process_view resolve settings self request view_func timer0 clock0 in
  let started := snd view in
  let completed :=
    snd (process_response K resolve unmatched self (fst view) response
           (Some sp) timer1 clock1) in
  let untraced :=
    process_response K resolve unmatched self (fst view) response None
      timer1 clock1 in
  let entity_key :=
    (("request." ++ get_entity_name request ++ "." ++ method request)
       ++ ".inflight")%string in
  let entity_tags :=
    get_tags_map None None None
      (Some (func_module_ (func (resolve (path_info request)))))
      (Some (func_name_ (func (resolve (path_info request)))))
      None in
  let total_tags :=
    get_tags_map
      (Some (Py.or_else (cluster t) (NULL_TAG_VAL K)))
      (Some (Py.or_else (service t) (NULL_TAG_VAL K)))
      (Some (Py.or_else (shard t) (NULL_TAG_VAL K)))
      None None None in
  (gauge_updates started
   = [(entity_key, entity_tags, 1); ("total_requests.inflight", total_tags, 1)]
   /\ gauge_value (run_calls registry started) entity_key entity_tags
      = gauge_value registry entity_key entity_tags + 1
   /\ gauge_value (run_calls registry started)
        "total_requests.inflight" total_tags
      = gauge_value registry "total_requests.inflight" total_tags + 1
   /\ (_trace_all tr = false -> tracing_calls started = []))
  /\ (unmatched (path_info request) = false ->
      gauge_updates completed
      = [(entity_key, entity_tags, -1);
         ("total_requests.inflight", total_tags, -1)]
      /\ (forall key tags,
            gauge_value (run_calls registry (started ++ completed)) key tags
            = gauge_value registry key tags))
  /\ ((exists e, fst untraced = Raise e)
      /\ snd untraced = []
      /\ gauge_value (run_calls registry (started ++ snd untraced))
           entity_key entity_tags
         = gauge_value registry entity_key entity_tags + 1
      /\ gauge_value (run_calls registry (started ++ snd untraced))
           "total_requests.inflight" total_tags
         = gauge_value registry "total_requests.inflight" total_tags + 1).
Proof.
  intros self view started completed untraced entity_key entity_tags total_tags.
  assert (Hs : gauge_updates started
               = [(entity_key, entity_tags, 1);
                  ("total_requests.inflight", total_tags, 1)]).
  { subst started view self. apply gauge_updates_started. }
  assert (Hne : (entity_key, entity_tags)
                <> ("total_requests.inflight", total_tags)).
  { intros E. apply (f_equal fst) in E. cbn [fst] in E. discriminate E. }
  assert (H1 : gauge_value (run_calls registry started) entity_key entity_tags
               = gauge_value registry entity_key entity_tags + 1).
  { rewrite gauge_value_run_calls, Hs. cbn [gauge_change].
    rewrite decide_True by reflexivity.
    rewrite decide_False by (intros E; apply Hne; symmetry; exact E). lia. }
  assert (H2 : gauge_value (run_calls registry started)
                 "total_requests.inflight" total_tags
               = gauge_value registry "total_requests.inflight" total_tags + 1).
  { rewrite gauge_value_run_calls, Hs. cbn [gauge_change].
    rewrite decide_False by exact Hne.
    rewrite decide_True by reflexivity. lia. }
  split; [|split].
  - split; [exact Hs|]. split; [exact H1|]. split; [exact H2|].
    intros Htr. subst started view self. unfold process_view.
    cbn [enabled_attrs tracing]. rewrite Htr. reflexivity.
  - intros Hroute.
    assert (Hc : gauge_updates completed
                 = [(entity_key, entity_tags, -1);
                    ("total_requests.inflight", total_tags, -1)]).
    { subst completed view self. rewrite process_view_request.
      apply gauge_updates_completed. exact Hroute. }
    split; [exact Hc|].
    intros key tags.
    rewrite gauge_value_run_calls, gauge_updates_app, Hs, Hc.
    cbn [app gauge_change]. repeat case_decide; lia.
  - assert (Hu : instruments unmatched (fst view) None = false).
    { unfold instruments. apply andb_false_r. }
    subst untraced self.
    rewrite (process_response_raises K resolve unmatched
               (enabled_attrs K r t tr) (fst view)
               response None timer1 clock1 Hu).
    cbn [fst snd]. rewrite app_nil_r.
    split; [eexists; reflexivity|]. split; [reflexivity|].
    split; [exact H1 | exact H2].
Qed.

(** The two inflight gauges of an untraced request, from an empty
    registry: one after [process_view], and still one after
    [process_response], which raises before its decrements. *)
Example untraced_request_stays_inflight :
  let self :=
    MiddlewareEnabled
      (enabled_attrs sample_constants sample_reporter beachshirts
         {| _trace_all := false |}) in
  let view :=
    process_view sample_resolve (settings_of beachshirts) self make_request
      make_view 5 6 in
  let out :=
    process_response sample_constants sample_resolve sample_unmatched self
      (fst view) {| status_code := 200 |} None 15 26 in
  let after := run_calls empty_registry (snd view ++ snd out) in
  gauge_value after "request.make.GET.inflight"
    (get_tags_map None None None (Some "styling.views") (Some "make") None)
  = 1
  /\ gauge_value after "total_requests.inflight"
       (get_tags_map (Some (Py.PyStr 0 "none")) (Some (Py.PyStr 2 "styling"))
          (Some (Py.PyStr 0 "none")) None None None)
     = 1.
Proof. split; vm_compute; reflexivity. Qed.

(** ** A disabled middleware *)

Lemma WavefrontMiddleware_init_enabled K settings environ r t tr :
  get_conf settings environ "WF_REPORTER" = ConfReporter r ->
  get_conf settings environ "APPLICATION_TAGS" = ConfApplicationTags t ->
  get_conf settings environ "OPENTRACING_TRACING" = ConfTracing tr ->
  WavefrontMiddleware_init K settings environ
  = MiddlewareEnabled (enabled_attrs K r t tr).
Proof.
  intros Hr Ht Htr. unfold WavefrontMiddleware_init.
  rewrite Hr, Ht, Htr. reflexivity.
Qed.

Lemma MIDDLEWARE_ENABLED_iff K settings environ :
  MIDDLEWARE_ENABLED (WavefrontMiddleware_init K settings environ) = true
  <-> isinstance_WavefrontReporter (get_conf settings environ "WF_REPORTER")
      = true
      /\ isinstance_ApplicationTags
           (get_conf settings environ "APPLICATION_TAGS") = true
      /\ isinstance_DjangoTracing
           (get_conf settings environ "OPENTRACING_TRACING") = true.
Proof.
  unfold WavefrontMiddleware_init.
  destruct (get_conf settings environ "WF_REPORTER"),
    (get_conf settings environ "APPLICATION_TAGS"),
    (get_conf settings environ "OPENTRACING_TRACING"); simpl;
    split; try tauto; try discriminate; intros (? & ? & ?); discriminate.
Qed.

(** C9: when [WF_REPORTER], [APPLICATION_TAGS] or [OPENTRACING_TRACING]
    is missing or is not an instance of the expected class, [__init__]
    leaves the middleware disabled; then [process_view] makes no call and
    leaves the request as it was, [process_response] makes no call and
    returns the response it was given, and the registry is untouched. *)
Theorem disabled_middleware_hooks_make_no_call
    (K : Constants) (resolve : string -> ResolverMatch)
    (settings : gmap string conf_value) (environ : gmap string string)
    (Hconf :
       isinstance_WavefrontReporter (get_conf settings environ "WF_REPORTER")
       = false
       \/ isinstance_ApplicationTags
            (get_conf settings environ "APPLICATION_TAGS") = false
       \/ isinstance_DjangoTracing
            (get_conf settings environ "OPENTRACING_TRACING") = false) :
  let self := WavefrontMiddleware_init K settings environ in
  MIDDLEWARE_ENABLED self = false
  /\ forall unmatched request view_func response span timer clock registry,
       process_view resolve settings self request view_func timer clock
       = (request, [])
       /\ process_response K resolve unmatched self request response span
            timer clock
          = (Ok response, [])
       /\ run_calls registry
            (snd (process_view resolve settings self request view_func
                    timer clock)
             ++ snd (process_response K resolve unmatched self request
                       response span timer clock))%list
          = registry.
Proof.
  intros self.
  assert (E : self = MiddlewareDisabled).
  { subst self. unfold WavefrontMiddleware_init.
    destruct (get_conf settings environ "WF_REPORTER"),
      (get_conf settings environ "APPLICATION_TAGS"),
      (get_conf settings environ "OPENTRACING_TRACING");
      try reflexivity; simpl in Hconf;
      destruct Hconf as [H|[H|H]]; discriminate H. }
  rewrite E. split; [reflexivity|]. intros. repeat split.
Qed.

Lemma disabled_middleware_hooks_make_no_call_witness :
  MIDDLEWARE_ENABLED (WavefrontMiddleware_init sample_constants ∅ ∅) = false
  /\ process_response sample_constants sample_resolve sample_unmatched
       (WavefrontMiddleware_init sample_constants ∅ ∅) nowhere_request
       {| status_code := 503 |} None 0 0
     = (Ok {| status_code := 503 |}, []).
Proof.
  pose proof (disabled_middleware_hooks_make_no_call sample_constants
                sample_resolve ∅ ∅ (or_introl eq_refl)) as [H1 H2].
  split; [exact H1|].
  exact (proj1 (proj2 (H2 sample_unmatched nowhere_request make_view
                         {| status_code := 503 |} None 0 0 empty_registry))).
Defined.


(** * Further properties of the two modules *)

(** ** Entity names of any request *)

Lemma entity_char_safe d :
  (entity_char d <> "-" /\ entity_char d <> "/"
   /\ entity_char d <> "{" /\ entity_char d <> "}")%char.
Proof.
  unfold entity_char.
  destruct (Ascii.eqb_spec d "-"); [repeat split; discriminate|].
  destruct (Ascii.eqb_spec d "/"); [repeat split; discriminate|].
  destruct (Ascii.eqb_spec d "{"); [repeat split; discriminate|].
  destruct (Ascii.eqb_spec d "}"); [repeat split; discriminate|].
  repeat split; assumption.
Qed.

Lemma count_map_chars_safe c s :
  (forall d, entity_char d <> c) ->
  Py.count c (map_chars entity_char s) = 0%nat.
Proof.
  intros H. induction s as [|d s IH]; [reflexivity|].
  simpl. rewrite IH.
  destruct (Ascii.eqb_spec (entity_char d) c) as [E|E]; [|reflexivity].
  destruct (H d E).
Qed.

Lemma count_lstrip_le c chars s :
  (Py.count c (Py.lstrip chars s) <= Py.count c s)%nat.
Proof.
  induction s as [|d s IH]; [reflexivity|].
  simpl. destruct (Py.in_chars d chars); simpl; lia.
Qed.

Lemma count_rstrip_le c chars s :
  (Py.count c (Py.rstrip chars s) <= Py.count c s)%nat.
Proof.
  induction s as [|d s IH]; [reflexivity|].
  simpl. destruct (Py.rstrip chars s) as [|e r'].
  - destruct (Py.in_chars d chars); simpl in *; lia.
  - simpl in *. lia.
Qed.

Lemma length_lstrip_le chars s :
  (String.length (Py.lstrip chars s) <= String.length s)%nat.
Proof.
  induction s as [|d s IH]; [reflexivity|].
  simpl. destruct (Py.in_chars d chars); simpl; lia.
Qed.

Lemma length_rstrip_le chars s :
  (String.length (Py.rstrip chars s) <= String.length s)%nat.
Proof.
  induction s as [|d s IH]; [reflexivity|].
  simpl. destruct (Py.rstrip chars s) as [|e r'].
  - destruct (Py.in_chars d chars); simpl in *; lia.
  - simpl in *. lia.
Qed.

Lemma length_map_chars f s :
  String.length (map_chars f s) = String.length s.
Proof. induction s as [|d s IH]; simpl; [reflexivity | rewrite IH; reflexivity]. Qed.

Lemma count_sanitize_safe c name :
  (forall d, entity_char d <> c) -> Py.count c (sanitize name) = 0%nat.
Proof.
  intros H. rewrite sanitize_map.
  pose proof (count_rstrip_le c "."
                (Py.lstrip "." (map_chars entity_char name))) as H1.
  pose proof (count_lstrip_le c "." (map_chars entity_char name)) as H2.
  rewrite (count_map_chars_safe c name H) in H2. lia.
Qed.

(** X1: whatever the request, matched or not, the entity name contains
    none of ['-'], ['/'], ['{'], ['}'], neither starts nor ends with
    ['.'], and is no longer than the name of the matched route. *)
Theorem get_entity_name_is_metric_safe (request : HttpRequest) :
  let entity_name := get_entity_name request in
  (Py.count "-" entity_name = 0 /\ Py.count "/" entity_name = 0
   /\ Py.count "{" entity_name = 0 /\ Py.count "}" entity_name = 0)%nat
  /\ first_char entity_name <> Some "."%char
  /\ last_char entity_name <> Some "."%char
  /\ (forall m, resolver_match request = Some m ->
        (String.length entity_name <= String.length (route_name m))%nat).
Proof.
  intros entity_name. subst entity_name.
  destruct (resolver_match request) as [m|] eqn:Hm.
  - rewrite (get_entity_name_matched _ _ Hm).
    split; [|split; [|split]].
    + repeat split; apply count_sanitize_safe; intros d; apply entity_char_safe.
    + rewrite sanitize_map.
      pose proof (rstrip_no_lead "." _ (lstrip_no_lead "."
                    (map_chars entity_char (route_name m)))) as H.
      destruct (Py.rstrip "." _) as [|c r]; [discriminate|].
      simpl in *. intros [= ->]. discriminate.
    + rewrite sanitize_map. intros H.
      apply rstrip_no_trail in H. discriminate.
    + intros m' [= <-]. rewrite sanitize_map.
      pose proof (length_rstrip_le "."
                    (Py.lstrip "." (map_chars entity_char (route_name m)))).
      pose proof (length_lstrip_le "." (map_chars entity_char (route_name m))).
      rewrite length_map_chars in *. lia.
  - unfold get_entity_name. rewrite Hm.
    split; [|split; [|split]].
    + repeat split; reflexivity.
    + discriminate.
    + discriminate.
    + intros m H. discriminate H.
Qed.

Lemma lstrip_empty_iff chars s :
  Py.lstrip chars s = "" <-> all_chars (fun c => Py.in_chars c chars) s = true.
Proof.
  induction s as [|d s IH]; [simpl; tauto|].
  simpl. destruct (Py.in_chars d chars); simpl; [exact IH|].
  split; discriminate.
Qed.

Lemma rstrip_empty_iff chars s :
  Py.rstrip chars s = "" <-> all_chars (fun c => Py.in_chars c chars) s = true.
Proof.
  induction s as [|d s IH]; [simpl; tauto|].
  simpl. destruct (Py.rstrip chars s) as [|e r'].
  - destruct (Py.in_chars d chars); simpl.
    + rewrite <- IH. tauto.
    + split; discriminate.
  - split; [discriminate|]. intros H. apply andb_true_iff in H.
    destruct H as [_ H]. apply IH in H. discriminate H.
Qed.

Lemma all_chars_map_entity s :
  all_chars (fun c => Py.in_chars c ".") (map_chars entity_char s)
  = all_chars (fun c => Ascii.eqb c "." || Ascii.eqb c "/") s.
Proof.
  induction s as [|d s IH]; [reflexivity|].
  cbn [all_chars map_chars]. rewrite IH. f_equal.
  cbn [Py.in_chars]. rewrite orb_false_r.
  unfold entity_char.
  destruct (Ascii.eqb_spec d "-") as [->|H1]; [reflexivity|].
  destruct (Ascii.eqb_spec d "/") as [->|H2]; [reflexivity|].
  destruct (Ascii.eqb_spec d "{") as [->|H3]; [reflexivity|].
  destruct (Ascii.eqb_spec d "}") as [->|H4]; [reflexivity|].
  rewrite orb_false_r. reflexivity.
Qed.

(** X2: on a matched route the entity name is empty exactly when every
    character of the route's name is ['.'] or ['/']; the inflight gauge of
    such a route is then named [request..<method>.inflight]. *)
Theorem get_entity_name_empty_iff
    (request : HttpRequest) (m : ResolverMatch)
    (Hm : resolver_match request = Some m) :
  (get_entity_name request = ""
   <-> all_chars (fun c => Ascii.eqb c "." || Ascii.eqb c "/") (route_name m)
       = true)
  /\ (get_entity_name request = "" ->
      (get_metric_name (get_entity_name request) request None ++ ".inflight")%string
      = ("request.." ++ method request ++ ".inflight")%string).
Proof.
  split.
  - rewrite (get_entity_name_matched _ _ Hm), sanitize_map.
    rewrite rstrip_empty_iff, <- all_chars_map_entity.
    rewrite <- (lstrip_empty_iff "." (map_chars entity_char (route_name m))).
    split.
    + intros H.
      pose proof (lstrip_no_lead "." (map_chars entity_char (route_name m))) as N.
      destruct (Py.lstrip "." _) as [|c r]; [reflexivity|].
      simpl in H, N. rewrite N in H. discriminate H.
    + intros ->. reflexivity.
  - intros ->. reflexivity.
Qed.

Lemma get_entity_name_empty_iff_witness :
  get_entity_name (with_route make_request (route_named "/" make_view)) = ""
  /\ (get_metric_name "" make_request None ++ ".inflight")%string
     = "request..GET.inflight".
Proof.
  pose proof (get_entity_name_empty_iff
                (with_route make_request (route_named "/" make_view))
                (route_named "/" make_view) eq_refl) as [H1 H2].
  split; [exact (proj2 H1 eq_refl) | exact (H2 (proj2 H1 eq_refl))].
Defined.

(** ** Metric names *)

Lemma str_of_int_inj a b : Py.str_of_int a = Py.str_of_int b -> a = b.
Proof.
  unfold Py.str_of_int. intros H.
  assert (N : forall z, Z.to_int z <> Decimal.Pos Decimal.Nil
                        /\ Z.to_int z <> Decimal.Neg Decimal.Nil).
  { intros [|p|p]; simpl; split; try discriminate;
      intros [= E]; exact (Unsigned.to_uint_nonnil p E). }
  apply DecimalZ.to_int_inj.
  assert (E : Some (Z.to_int a) = Some (Z.to_int b)).
  { rewrite <- (NilZero.isi (Z.to_int a)) by apply N.
    rewrite <- (NilZero.isi (Z.to_int b)) by apply N.
    rewrite H. reflexivity. }
  injection E as E. exact E.
Qed.

(** X3: for one entity and request, two responses get the same response
    metric key exactly when their status codes are equal; without a
    response [get_metric_name] is [get_metric_name_without_status]; and a
    response metric key is never a request metric key, of any entity and
    request. *)
Theorem response_metric_key_separates_statuses
    (entity_name : string) (request : HttpRequest) (a b : HttpResponse) :
  (get_metric_name entity_name request (Some a)
   = get_metric_name entity_name request (Some b)
   <-> status_code a = status_code b)
  /\ get_metric_name entity_name request None
     = get_metric_name_without_status entity_name request
  /\ (forall entity_name' request',
        get_metric_name entity_name request (Some a)
        <> get_metric_name entity_name' request' None).
Proof.
  split; [|split].
  - split.
    + unfold get_metric_name, Py.join. cbn [app String.concat]. intros H.
      repeat (apply String.app_inj in H).
      apply str_of_int_inj. exact H.
    + intros H. unfold get_metric_name. rewrite H. reflexivity.
  - reflexivity.
  - intros entity_name' request' H.
    apply (f_equal (String.prefix "req")) in H. discriminate H.
Qed.

(** ** Tag sets *)

Lemma truthy_string_nonempty v : Py.truthy_string v = true <-> v <> "".
Proof. destruct v; simpl; split; intros H; congruence. Qed.

(** X4: [get_tags_map] binds a key to a value exactly when the value is
    the non-empty argument passed for that key: an empty or absent
    argument leaves no key, no value is ever empty, and no key other than
    the six is ever set. *)
Theorem get_tags_map_binds_nonempty_arguments
    (c s sh : option Py.pystr) (m f src : option string)
    (key value : string) :
  get_tags_map c s sh m f src !! key = Some value
  <-> value <> "" /\ In (key, Some value) (tag_arguments c s sh m f src).
Proof.
  unfold get_tags_map, tag_arguments.
  rewrite !lookup_set_if_truthy, lookup_empty.
  rewrite !truthy_text_str_val.
  cbn [In].
  repeat case_decide; subst; try discriminate.
  all: repeat match goal with
              | |- context [Py.truthy ?x] =>
                  destruct x as [[? [|? ?]]|]; cbn [Py.truthy Py.truthy_string Py.str_val fmap option_fmap option_map]
              | |- context [Py.truthy_text ?x] =>
                  destruct x as [[|? ?]|]; cbn [Py.truthy_text Py.truthy_string]
              end.
  all: split;
    [ intros Hlook;
      first [ discriminate Hlook
            | injection Hlook as <-; split; [discriminate | auto 10] ]
    | intros [Hne Hin];
      repeat match goal with
             | Hin : _ \/ _ |- _ => destruct Hin as [Hin|Hin]
             | Hin : False |- _ => destruct Hin
             end;
      congruence ].
Qed.

Lemma set_if_truthy_mono key v' v (m1 m2 : gmap string string) :
  m1 ⊆ m2 -> m1 !! key = None -> dropped_or_same v' v ->
  set_if_truthy key v' m1 ⊆ set_if_truthy key v m2.
Proof.
  intros Hsub Hnone [-> | ->]; unfold set_if_truthy.
  - destruct v as [x|]; [destruct (Py.truthy_string x)|]; try exact Hsub.
    apply insert_subseteq_r; assumption.
  - destruct v as [x|]; [destruct (Py.truthy_string x)|]; try exact Hsub.
    apply insert_mono. exact Hsub.
Qed.

Lemma dropped_or_same_fmap {A B} (g : A -> B) (x' x : option A) :
  dropped_or_same x' x -> dropped_or_same (g <$> x') (g <$> x).
Proof. intros [-> | ->]; [left | right]; reflexivity. Qed.

Lemma get_tags_map_mono
    (c s sh c' s' sh' : option Py.pystr) (m f src m' f' src' : option string) :
  dropped_or_same c' c -> dropped_or_same s' s -> dropped_or_same sh' sh ->
  dropped_or_same m' m -> dropped_or_same f' f -> dropped_or_same src' src ->
  get_tags_map c' s' sh' m' f' src' ⊆ get_tags_map c s sh m f src.
Proof.
  intros Hc Hs Hsh Hm Hf Hsrc. unfold get_tags_map.
  repeat (apply set_if_truthy_mono;
          [ | rewrite ?lookup_set_if_truthy;
              repeat (case_decide; [discriminate|]); apply lookup_empty
            | first [assumption | apply dropped_or_same_fmap; assumption] ]).
  reflexivity.
Qed.

(** X5: a tag set built from arguments of which some are dropped and the
    others passed on unchanged is contained in the tag set built from all
    of them: a coarser aggregation scope binds no key the finer one lacks
    and no key to another value, so a key of the finer scope is either
    bound alike in the coarser one or absent from it. *)
Theorem get_tags_map_coarser_scope_is_contained
    (c s sh c' s' sh' : option Py.pystr) (m f src m' f' src' : option string)
    (Hc : dropped_or_same c' c) (Hs : dropped_or_same s' s)
    (Hsh : dropped_or_same sh' sh) (Hm : dropped_or_same m' m)
    (Hf : dropped_or_same f' f) (Hsrc : dropped_or_same src' src) :
  get_tags_map c' s' sh' m' f' src' ⊆ get_tags_map c s sh m f src
  /\ (forall key value,
        get_tags_map c s sh m f src !! key = Some value ->
        get_tags_map c' s' sh' m' f' src' !! key = Some value
        \/ get_tags_map c' s' sh' m' f' src' !! key = None).
Proof.
  pose proof (get_tags_map_mono c s sh c' s' sh' m f src m' f' src'
                Hc Hs Hsh Hm Hf Hsrc) as Hsub.
  split; [exact Hsub|].
  intros key value Hfine.
  destruct (get_tags_map c' s' sh' m' f' src' !! key) as [v|] eqn:E;
    [left | right; reflexivity].
  pose proof (lookup_weaken _ _ _ _ E Hsub) as H.
  congruence.
Qed.

Lemma get_tags_map_coarser_scope_is_contained_witness :
  get_tags_map (Some (Py.PyStr 0 "none")) (Some (Py.PyStr 2 "styling")) None
    None None (Some "wavefront-provided")
  ⊆ get_tags_map (Some (Py.PyStr 0 "none")) (Some (Py.PyStr 2 "styling"))
      (Some (Py.PyStr 0 "none")) (Some "styling.views") (Some "make")
      (Some "wavefront-provided").
Proof.
  apply get_tags_map_coarser_scope_is_contained;
    first [right; reflexivity | left; reflexivity].
Defined.

(** ** Gauges *)

(** X6: [update_gauge] sets the gauge to its earlier reading plus [val],
    a gauge never set reading as zero, and touches nothing else; two
    updates of one gauge amount to one update by the sum; and an update
    by [val] followed by one by [-val] leaves the gauge set to its earlier
    reading, hence to zero, not NaN, if it had never been set. *)
Theorem update_gauge_adds_and_composes
    (registry : TaggedRegistry) (key : string) (tags : gmap string string)
    (a b : Z) :
  gauges (update_gauge registry key tags a) !! (key, tags)
  = Some (gauge_value registry key tags + a)
  /\ (forall key' tags',
        (key', tags') <> (key, tags) ->
        gauges (update_gauge registry key tags a) !! (key', tags')
        = gauges registry !! (key', tags'))
  /\ (counters (update_gauge registry key tags a) = counters registry
      /\ delta_counters (update_gauge registry key tags a)
         = delta_counters registry
      /\ histograms (update_gauge registry key tags a) = histograms registry)
  /\ update_gauge (update_gauge registry key tags a) key tags b
     = update_gauge registry key tags (a + b)
  /\ gauges (update_gauge (update_gauge registry key tags a) key tags (- a))
       !! (key, tags)
     = Some (gauge_value registry key tags).
Proof.
  assert (Hcomp : forall x y,
             update_gauge (update_gauge registry key tags x) key tags y
             = update_gauge registry key tags (x + y)).
  { intros x y. unfold update_gauge. cbn [gauges counters delta_counters histograms].
    rewrite lookup_insert_eq, insert_insert_eq.
    f_equal. f_equal. lia. }
  assert (Hget : forall x,
             gauges (update_gauge registry key tags x) !! (key, tags)
             = Some (gauge_value registry key tags + x)).
  { intros x. unfold update_gauge, gauge_value. cbn [gauges].
    apply lookup_insert_eq. }
  split; [apply Hget|]. split; [|split; [|split]].
  - intros key' tags' Hne. unfold update_gauge. cbn [gauges].
    apply lookup_insert_ne. congruence.
  - repeat split.
  - apply Hcomp.
  - rewrite Hcomp, Hget. f_equal. lia.
Qed.

(** ** More of the calls of the two hooks, as lists *)

Section MoreShape.

Context (K : Constants) (resolve : string -> ResolverMatch).
Context (unmatched : string -> bool).
Context (settings : gmap string conf_value).
Context (r : WavefrontReporter) (t : ApplicationTags) (tr : DjangoTracing).
Context (request : HttpRequest) (response : HttpResponse).
Context (sp : Span) (timer clock : Z).
Hypothesis Hroute : unmatched (path_info request) = false.

Let self := MiddlewareEnabled (enabled_attrs K r t tr).
Let completed :=
  snd (process_response K resolve unmatched self request response (Some sp)
         timer clock).
Let response_metric_key :=
  get_metric_name (get_entity_name request) request (Some response).
Let func_name := func_name_ (func (resolve (path_info request))).
Let module_name := func_module_ (func (resolve (path_info request))).
Let complete_tags_map :=
  get_tags_map
    (Some (Py.or_else (cluster t) (NULL_TAG_VAL K)))
    (Some (Py.or_else (service t) (NULL_TAG_VAL K)))
    (Some (Py.or_else (shard t) (NULL_TAG_VAL K)))
    (Some module_name) (Some func_name) None.

Ltac by_branches :=
  subst completed self;
  unfold process_response; rewrite Hroute;
  cbn [enabled_attrs SHARD CLUSTER application_tags];
  destruct (is_error_status_code response),
    (Py.truthy (shard t)), (Py.truthy (cluster t)),
    (Py.is_ (Py.or_else (shard t) (NULL_TAG_VAL K)) (NULL_TAG_VAL K)),
    (Py.is_ (Py.or_else (cluster t) (NULL_TAG_VAL K)) (NULL_TAG_VAL K)),
    (wf_marks request) as [[? ?]|];
  reflexivity.

Lemma histogram_adds_completed :
  histogram_adds completed
  = match wf_marks request with
    | Some (wf_start_timestamp, wf_cpu_nanos) =>
        [ ((response_metric_key ++ ".latency")%string, complete_tags_map,
           timer - wf_start_timestamp);
          ((response_metric_key ++ ".cpu_ns")%string, complete_tags_map,
           clock - wf_cpu_nanos) ]
    | None => []
    end.
Proof. by_branches. Qed.

Lemma span_tags_completed :
  span_tags completed
  = ([("http.status_code", Py.str_of_int (status_code response))]
     ++ (if is_error_status_code response then [("error", "true")] else [])
     ++ [ ("span.kind", "server");
          ("django.resource.module", module_name);
          ("django.resource.func", func_name);
          ("component", DJANGO_COMPONENT K);
          ("http.method", method request);
          ("http.url", build_absolute_uri request) ])%list.
Proof. by_branches. Qed.

Lemma tracing_calls_completed : tracing_calls completed = [Finish_tracing].
Proof. by_branches. Qed.

Lemma process_response_returns :
  fst (process_response K resolve unmatched self request response (Some sp)
         timer clock)
  = Ok response.
Proof. by_branches. Qed.

Lemma other_calls_started view_func timer0 clock0 :
  let started :=
    snd (process_view resolve settings self request view_func timer0 clock0) in
  counter_incs started = [] /\ delta_incs started = []
  /\ histogram_adds started = [] /\ span_tags started = []
  /\ tracing_calls started
     = if _trace_all tr
       then [Apply_tracing view_func
               (match settings !! "OPENTRACING_TRACED_ATTRIBUTES" with
                | Some v => v
                | None => ConfList []
                end)]
       else [].
Proof.
  subst self. unfold process_view. cbn [enabled_attrs tracing].
  destruct (_trace_all tr); repeat split.
Qed.

End MoreShape.

(** ** What [process_view] does and does not do *)

(** X7: an enabled [process_view] returns the request with the two timer
    readings attached and nothing else changed; it increments no counter
    and no delta counter, records no histogram sample and sets no span
    tag; and it starts the tracing of the request exactly when
    [_trace_all] is set, with the traced attributes of the settings, the
    empty list when the settings have none. *)
Theorem process_view_marks_request_and_traces
    (K : Constants) (resolve : string -> ResolverMatch)
    (settings : gmap string conf_value)
    (r : WavefrontReporter) (t : ApplicationTags) (tr : DjangoTracing)
    (request : HttpRequest) (view_func : ViewFunc) (timer clock : Z) :
  let self := MiddlewareEnabled (enabled_attrs K r t tr) in
  let view := process_view resolve settings self request view_func timer clock in
  (wf_start_timestamp (fst view) = Some timer
   /\ wf_cpu_nanos (fst view) = Some clock
   /\ path_info (fst view) = path_info request
   /\ method (fst view) = method request
   /\ resolver_match (fst view) = resolver_match request
   /\ build_absolute_uri (fst view) = build_absolute_uri request)
  /\ (counter_incs (snd view) = [] /\ delta_incs (snd view) = []
      /\ histogram_adds (snd view) = [] /\ span_tags (snd view) = [])
  /\ tracing_calls (snd view)
     = (if _trace_all tr
        then [Apply_tracing view_func
                (default (ConfList [])
                   (settings !! "OPENTRACING_TRACED_ATTRIBUTES"))]
        else [])
  /\ (_trace_all tr = false <-> tracing_calls (snd view) = []).
Proof.
  intros self view. subst view self.
  pose proof (other_calls_started K resolve settings r t tr request
                view_func timer clock) as (Hc & Hd & Hh & Hs & Ht).
  rewrite process_view_request.
  split; [repeat split|]. split; [tauto|].
  rewrite Ht. split.
  - destruct (settings !! "OPENTRACING_TRACED_ATTRIBUTES"); reflexivity.
  - destruct (_trace_all tr); split; intros H; congruence.
Qed.

(** ** Histograms and the span *)

(** X8: for a request that went through [process_view], a
    [process_response] that has a span and a path matching a route
    records exactly two histogram samples at full tag scope,
    [<response key>.latency] with the timer reading minus the one at the
    start and [<response key>.cpu_ns] with the clock reading minus the
    one at the start, and returns the response it was given; one that has
    no span, or whose path matches no route, raises and records no
    sample. *)
Theorem process_response_histograms_need_start_marks
    (K : Constants) (resolve : string -> ResolverMatch)
    (unmatched : string -> bool)
    (settings : gmap string conf_value)
    (r : WavefrontReporter) (t : ApplicationTags) (tr : DjangoTracing)
    (request : HttpRequest) (view_func : ViewFunc) (response : HttpResponse)
    (span : option Span)
    (timer0 clock0 timer1 clock1 : Z) :
  let self := MiddlewareEnabled (enabled_attrs K r t tr) in
  let marked :=
    fst (process_view resolve settings self request view_func timer0 clock0) in
  let out :=
    process_response K resolve unmatched self marked response span
      timer1 clock1 in
  let response_metric_key :=
    get_metric_name (get_entity_name request) request (Some response) in
  let complete_tags_map :=
    get_tags_map
      (Some (Py.or_else (cluster t) (NULL_TAG_VAL K)))
      (Some (Py.or_else (service t) (NULL_TAG_VAL K)))
      (Some (Py.or_else (shard t) (NULL_TAG_VAL K)))
      (Some (func_module_ (func (resolve (path_info request)))))
      (Some (func_name_ (func (resolve (path_info request)))))
      None in
  (instruments unmatched request span = true ->
   histogram_adds (snd out)
   = [ ((response_metric_key ++ ".latency")%string, complete_tags_map,
        timer1 - timer0);
       ((response_metric_key ++ ".cpu_ns")%string, complete_tags_map,
        clock1 - clock0) ]
   /\ fst out = Ok response)
  /\ (instruments unmatched request span = false ->
      histogram_adds (snd out) = []
      /\ fst out
         = Raise (if unmatched (path_info request)
                  then Resolver404 (path_info request)
                  else AttributeError
                         "'NoneType' object has no attribute 'set_tag'")).
Proof.
  intros self marked out response_metric_key complete_tags_map.
  subst out marked self. rewrite process_view_request.
  split; intros Hi.
  - destruct (instruments_inv _ _ _ Hi) as (Hroute & sp & ->).
    rewrite histogram_adds_completed by exact Hroute.
    rewrite process_response_returns by exact Hroute.
    split; reflexivity.
  - rewrite process_response_raises by exact Hi. split; reflexivity.
Qed.

(** X9: the span of a request is tagged [error = true] exactly when
    [process_response] has a span and a matching route and the status is
    in [400, 599], that is, exactly when the [response.errors] counter is
    incremented; it carries the status code in decimal under
    [http.status_code] exactly when [process_response] has a span and a
    matching route; and the tracing is then finished exactly once, and
    not finished when [process_response] raises. *)
Theorem span_error_tag_iff_error_counter
    (K : Constants) (resolve : string -> ResolverMatch)
    (unmatched : string -> bool)
    (r : WavefrontReporter) (t : ApplicationTags) (tr : DjangoTracing)
    (request : HttpRequest) (response : HttpResponse) (span : option Span)
    (timer clock : Z) :
  let self := MiddlewareEnabled (enabled_attrs K r t tr) in
  let completed :=
    snd (process_response K resolve unmatched self request response span
           timer clock) in
  let runs := instruments unmatched request span = true in
  (In ("error", "true") (span_tags completed)
   <-> runs /\ 400 <= status_code response <= 599)
  /\ (In ("error", "true") (span_tags completed)
      <-> In "response.errors" (counter_names completed))
  /\ (In ("http.status_code", Py.str_of_int (status_code response))
        (span_tags completed) <-> runs)
  /\ tracing_calls completed
     = (if instruments unmatched request span then [Finish_tracing] else []).
Proof.
  intros self completed runs. subst completed self runs.
  raises_or_runs unmatched request span.
  2: { cbn [span_tags counter_names tracing_calls In].
       repeat split; try tauto; try discriminate.
       intros [H _]; discriminate H. }
  rewrite (span_tags_completed K resolve unmatched r t tr request response
             sp timer clock Hroute),
    (tracing_calls_completed K resolve unmatched r t tr request response
       sp timer clock Hroute),
    (counter_names_completed K resolve unmatched r t tr request response
       sp timer clock Hroute).
  rewrite <- is_error_status_code_range.
  destruct (is_error_status_code response) eqn:E.
  - split; [|split; [|split]]; try reflexivity.
    + split; [intros _; split; reflexivity | intros _; in_list].
    + split; intros _; in_list.
    + split; [reflexivity | intros _; in_list].
  - split; [|split; [|split]]; try reflexivity.
    + split; [|intros [_ H]; discriminate H].
      intros H. in_cases; discriminate H.
    + split; intros H; exfalso.
      * in_cases; discriminate H.
      * in_cases; try discriminate H; names_differ H.
    + split; [reflexivity | intros _; in_list].
Qed.

(** ** Counters in the registry *)

Lemma counter_names_incs cs : counter_names cs = map fst (counter_incs cs).
Proof.
  induction cs as [|c cs IH]; [reflexivity|].
  destruct c; cbn [counter_names counter_incs map fst]; rewrite ?IH; reflexivity.
Qed.

Lemma delta_names_incs cs : delta_names cs = map fst (delta_incs cs).
Proof.
  induction cs as [|c cs IH]; [reflexivity|].
  destruct c; cbn [delta_names delta_incs map fst]; rewrite ?IH; reflexivity.
Qed.

Lemma increments_of_absent incs key tags :
  ~ In (key, tags) incs -> increments_of incs key tags = 0.
Proof.
  induction incs as [|inc incs IH]; intros H; [reflexivity|].
  cbn [increments_of]. rewrite IH by (intros H'; apply H; right; exact H').
  rewrite decide_False by (intros ->; apply H; left; reflexivity). reflexivity.
Qed.

Lemma increments_of_once incs key tags :
  List.NoDup (map fst incs) -> In (key, tags) incs ->
  increments_of incs key tags = 1.
Proof.
  induction incs as [|inc incs IH]; intros Hnd Hin; [destruct Hin|].
  cbn [map] in Hnd. apply List.NoDup_cons_iff in Hnd. destruct Hnd as [Hnot Hnd].
  cbn [increments_of]. destruct Hin as [->|Hin].
  - rewrite decide_True by reflexivity.
    rewrite increments_of_absent; [reflexivity|].
    intros H. apply Hnot. apply (in_map fst) in H. exact H.
  - rewrite IH by assumption.
    rewrite decide_False; [reflexivity|].
    intros ->. apply Hnot. apply (in_map fst) in Hin. exact Hin.
Qed.

Lemma counter_value_run_calls cs : forall registry key tags,
  counter_value (run_calls registry cs) key tags
  = counter_value registry key tags + increments_of (counter_incs cs) key tags.
Proof.
  induction cs as [|c cs IH]; intros registry key tags.
  - simpl. lia.
  - change (run_calls registry (c :: cs))
      with (run_calls (run_call registry c) cs).
    rewrite IH. destruct c; cbn [counter_incs increments_of run_call];
      try (unfold counter_value, update_gauge; cbn [counters]; lia).
    unfold counter_value at 1. cbn [counters].
    rewrite lookup_insert. case_decide as E.
    + injection E as -> ->. lia.
    + unfold counter_value. lia.
Qed.

Lemma delta_counter_value_run_calls cs : forall registry key tags,
  delta_counter_value (run_calls registry cs) key tags
  = delta_counter_value registry key tags
    + increments_of (delta_incs cs) key tags.
Proof.
  induction cs as [|c cs IH]; intros registry key tags.
  - simpl. lia.
  - change (run_calls registry (c :: cs))
      with (run_calls (run_call registry c) cs).
    rewrite IH. destruct c; cbn [delta_incs increments_of run_call];
      try (unfold delta_counter_value, update_gauge;
           cbn [delta_counters]; lia).
    unfold delta_counter_value at 1. cbn [delta_counters].
    rewrite lookup_insert. case_decide as E.
    + injection E as -> ->. unfold delta_counter_value.
      destruct (delta_counters registry !! (key, tags)); lia.
    + unfold delta_counter_value. lia.
Qed.

(** Proves that an explicit list of metric names has no repetition. *)
Ltac names_nodup :=
  repeat match goal with
         | |- context [if ?b then _ else _] => destruct b
         end;
  cbn [app];
  repeat (apply List.NoDup_cons;
          [ let H := fresh in
            intros H; in_cases;
            first [ discriminate H | names_differ H ] | ]);
  apply List.NoDup_nil.

Lemma counter_names_response_nodup K resolve unmatched r t tr request
    response span timer clock :
  List.NoDup
    (counter_names
       (snd (process_response K resolve unmatched
               (MiddlewareEnabled (enabled_attrs K r t tr)) request response
               span timer clock))).
Proof.
  raises_or_runs unmatched request span.
  - rewrite counter_names_completed by exact Hroute. names_nodup.
  - apply List.NoDup_nil.
Qed.

(** X10: within one [process_response] no cumulative counter and no delta
    counter is named twice; so, replayed on any registry, the calls raise
    each counter they name by exactly one and leave every other counter as
    it was. *)
Theorem process_response_counts_each_counter_once
    (K : Constants) (resolve : string -> ResolverMatch)
    (unmatched : string -> bool)
    (r : WavefrontReporter) (t : ApplicationTags) (tr : DjangoTracing)
    (request : HttpRequest) (response : HttpResponse) (span : option Span)
    (timer clock : Z) (registry : TaggedRegistry) :
  let self := MiddlewareEnabled (enabled_attrs K r t tr) in
  let completed :=
    snd (process_response K resolve unmatched self request response span
           timer clock) in
  let after := run_calls registry completed in
  List.NoDup (counter_names completed)
  /\ List.NoDup (delta_names completed)
  /\ (forall key tags,
        (In (key, tags) (counter_incs completed) ->
         counter_value after key tags = counter_value registry key tags + 1)
        /\ (~ In (key, tags) (counter_incs completed) ->
            counter_value after key tags = counter_value registry key tags))
  /\ (forall key tags,
        (In (key, tags) (delta_incs completed) ->
         delta_counter_value after key tags
         = delta_counter_value registry key tags + 1)
        /\ (~ In (key, tags) (delta_incs completed) ->
            delta_counter_value after key tags
            = delta_counter_value registry key tags)).
Proof.
  intros self completed after.
  assert (Hc : List.NoDup (counter_names completed)).
  { subst completed self. apply counter_names_response_nodup. }
  assert (Hd : List.NoDup (delta_names completed)).
  { subst completed self. raises_or_runs unmatched request span.
    - rewrite delta_names_completed by exact Hroute. names_nodup.
    - apply List.NoDup_nil. }
  split; [exact Hc|]. split; [exact Hd|].
  rewrite counter_names_incs in Hc. rewrite delta_names_incs in Hd.
  subst after. split; intros key tags; split; intros H.
  - rewrite counter_value_run_calls, (increments_of_once _ _ _ Hc H). reflexivity.
  - rewrite counter_value_run_calls, (increments_of_absent _ _ _ H). lia.
  - rewrite delta_counter_value_run_calls, (increments_of_once _ _ _ Hd H).
    reflexivity.
  - rewrite delta_counter_value_run_calls, (increments_of_absent _ _ _ H). lia.
Qed.

(** ** The tag list of a constructed identity *)

(** X11: for an [ApplicationTags] that [__init__] returned, and a
    non-empty null-tag sentinel, [get_as_list] has the four keys
    application, service, cluster, shard in this order, each bound to a
    non-empty string: the application and the service given, and the
    cluster and the shard given or else the sentinel; the custom tags are
    not in the list. *)
Theorem get_as_list_of_constructed_tags
    (K : Constants) (a s c sh : option Py.pystr)
    (ct : option (list (string * string))) (t : ApplicationTags)
    (Hinit : ApplicationTags_init a s c sh ct = Ok t)
    (Hnull : Py.truthy_string (Py.str_val (NULL_TAG_VAL K)) = true) :
  get_as_list K t
  = [ (APPLICATION_TAG_KEY K, a); (SERVICE_TAG_KEY K, s);
      (CLUSTER_TAG_KEY K, Some (Py.or_else c (NULL_TAG_VAL K)));
      (SHARD_TAG_KEY K, Some (Py.or_else sh (NULL_TAG_VAL K))) ]
  /\ List.Forall (fun kv => Py.truthy (snd kv) = true) (get_as_list K t)
  /\ (forall ct' t',
        ApplicationTags_init a s c sh ct' = Ok t' ->
        get_as_list K t' = get_as_list K t).
Proof.
  assert (Hor : forall x, Py.truthy (Some (Py.or_else x (NULL_TAG_VAL K))) = true).
  { intros [[i [|ch v]]|]; simpl; try exact Hnull; reflexivity. }
  unfold ApplicationTags_init in Hinit.
  destruct (Py.truthy a) eqn:Ea; [|discriminate Hinit].
  destruct (Py.truthy s) eqn:Es; [|discriminate Hinit].
  simpl in Hinit. injection Hinit as <-.
  split; [reflexivity|]. split.
  - unfold get_as_list. cbn [application service cluster shard
      _application _service _cluster _shard].
    repeat constructor; cbn [snd]; auto.
  - intros ct' t' H. unfold ApplicationTags_init in H.
    rewrite Ea, Es in H. simpl in H. injection H as <-. reflexivity.
Qed.

Lemma get_as_list_of_constructed_tags_witness :
  get_as_list sample_constants beachshirts
  = [ ("application", Some (Py.PyStr 1 "beachshirts"));
      ("service", Some (Py.PyStr 2 "styling"));
      ("cluster", Some (Py.PyStr 0 "none"));
      ("shard", Some (Py.PyStr 0 "none")) ].
Proof.
  exact (proj1 (get_as_list_of_constructed_tags sample_constants
                  (Some (Py.PyStr 1 "beachshirts")) (Some (Py.PyStr 2 "styling"))
                  None None None beachshirts eq_refl eq_refl)).
Defined.

(** ** Configuration *)

(** X12: the middleware is enabled exactly when the settings themselves
    hold a reporter, an application-tags object and a tracing object
    under the three names; what [get_conf] falls back to in the
    environment is a string and passes none of the three tests, so the
    outcome of [__init__] does not depend on the environment; and a
    setting always shadows the environment variable of the same name. *)
Theorem middleware_enabled_by_settings_alone
    (K : Constants) (settings : gmap string conf_value)
    (environ environ' : gmap string string) :
  (MIDDLEWARE_ENABLED (WavefrontMiddleware_init K settings environ) = true
   <-> exists r t tr,
         settings !! "WF_REPORTER" = Some (ConfReporter r)
         /\ settings !! "APPLICATION_TAGS" = Some (ConfApplicationTags t)
         /\ settings !! "OPENTRACING_TRACING" = Some (ConfTracing tr))
  /\ WavefrontMiddleware_init K settings environ'
     = WavefrontMiddleware_init K settings environ
  /\ (forall key v,
        settings !! key = Some v -> get_conf settings environ key = v)
  /\ (forall key s,
        settings !! key = None -> environ !! key = Some s ->
        get_conf settings environ key = ConfStr s)
  /\ (forall key,
        settings !! key = None -> environ !! key = None ->
        get_conf settings environ key = ConfNone).
Proof.
  split; [|split; [|split; [|split]]].
  - unfold WavefrontMiddleware_init, get_conf.
    destruct (settings !! "WF_REPORTER") as [[]|];
      [| | | | | | |destruct (environ !! "WF_REPORTER")];
      try (split; [discriminate | intros (? & ? & ? & H & _); discriminate H]).
    destruct (settings !! "APPLICATION_TAGS") as [[]|];
      [| | | | | | |destruct (environ !! "APPLICATION_TAGS")];
      try (split; [discriminate | intros (? & ? & ? & _ & H & _); discriminate H]).
    destruct (settings !! "OPENTRACING_TRACING") as [[]|];
      [| | | | | | |destruct (environ !! "OPENTRACING_TRACING")];
      try (split; [discriminate | intros (? & ? & ? & _ & _ & H); discriminate H]).
    split; [intros _; eauto 10 | reflexivity].
  - unfold WavefrontMiddleware_init, get_conf.
    destruct (settings !! "WF_REPORTER") as [[]|];
      [| | | | | | |destruct (environ !! "WF_REPORTER"),
                      (environ' !! "WF_REPORTER")];
      try reflexivity.
    destruct (settings !! "APPLICATION_TAGS") as [[]|];
      [| | | | | | |destruct (environ !! "APPLICATION_TAGS"),
                      (environ' !! "APPLICATION_TAGS")];
      try reflexivity.
    destruct (settings !! "OPENTRACING_TRACING") as [[]|];
      [| | | | | | |destruct (environ !! "OPENTRACING_TRACING"),
                      (environ' !! "OPENTRACING_TRACING")];
      reflexivity.
  - intros key v H. unfold get_conf. rewrite H. reflexivity.
  - intros key s H1 H2. unfold get_conf. rewrite H1, H2. reflexivity.
  - intros key H1 H2. unfold get_conf. rewrite H1, H2. reflexivity.
Qed.

(** ** The keys of the tag sets *)

Lemma in_tag_sets cs tags :
  In tags (tag_sets cs) ->
  In tags (map snd (counter_incs cs))
  \/ In tags (map snd (delta_incs cs))
  \/ In tags (map (fun u => snd (fst u)) (gauge_updates cs))
  \/ In tags (map (fun u => snd (fst u)) (histogram_adds cs)).
Proof.
  induction cs as [|c cs IH]; [intros []|].
  destruct c;
    cbn [tag_sets call_tags counter_incs delta_incs gauge_updates
           histogram_adds map fst snd In];
    intros H; try (destruct H as [H|H]); try (specialize (IH H)); tauto.
Qed.

Lemma get_tags_map_other_key c s sh m f src key :
  ~ In key tag_keys -> get_tags_map c s sh m f src !! key = None.
Proof.
  intros H. unfold get_tags_map. rewrite !lookup_set_if_truthy.
  repeat (case_decide;
          [exfalso; apply H; subst key; cbn [tag_keys In]; auto 10|]).
  apply lookup_empty.
Qed.

(** X13: no registry call of either hook carries a tag under a key other
    than [cluster], [service], [shard], [django.resource.module],
    [django.resource.func] and [source]: the application name and the
    custom tags of the identity reach no metric. *)
Theorem hooks_tag_sets_use_six_keys_only
    (K : Constants) (resolve : string -> ResolverMatch)
    (unmatched : string -> bool)
    (settings : gmap string conf_value)
    (r : WavefrontReporter) (t : ApplicationTags) (tr : DjangoTracing)
    (request : HttpRequest) (view_func : ViewFunc) (response : HttpResponse)
    (span : option Span)
    (timer clock : Z) (key : string)
    (Hkey : ~ In key tag_keys) :
  let self := MiddlewareEnabled (enabled_attrs K r t tr) in
  List.Forall (fun tags : gmap string string => tags !! key = None)
    (tag_sets
       (snd (process_view resolve settings self request view_func timer clock))
     ++ tag_sets
          (snd (process_response K resolve unmatched self request response
                  span timer clock)))%list.
Proof.
  intros self. subst self.
  apply List.Forall_forall. intros tags Hin.
  apply in_app_or in Hin. destruct Hin as [Hin|Hin].
  2: { revert Hin. raises_or_runs unmatched request span;
         [intros Hin | intros []].
       apply in_tag_sets in Hin.
       rewrite (counter_incs_completed K resolve unmatched r t tr request
                  response sp timer clock Hroute),
         (delta_incs_completed K resolve unmatched r t tr request
            response sp timer clock Hroute),
         (gauge_updates_completed K resolve unmatched r t tr request
            response sp timer clock Hroute),
         (histogram_adds_completed K resolve unmatched r t tr request
            response sp timer clock Hroute) in Hin.
       repeat match goal with
              | H : _ \/ _ |- _ => destruct H as [H|H]
              end.
       all: apply in_map_iff in Hin; destruct Hin as (x & <- & Hin).
       all: try (destruct (wf_marks request) as [[? ?]|]).
       all: in_cases; subst x; apply get_tags_map_other_key; exact Hkey. }
  apply in_tag_sets in Hin.
  pose proof (other_calls_started K resolve settings r t tr request
                view_func timer clock) as (Hc & Hd & Hh & _).
  rewrite Hc, Hd, Hh, gauge_updates_started in Hin.
  cbn [map In fst snd] in Hin.
  repeat match goal with
         | H : _ \/ _ |- _ => destruct H as [H|H]
         | H : False |- _ => destruct H
         end;
    subst tags; apply get_tags_map_other_key; exact Hkey.
Qed.

Lemma hooks_tag_sets_use_six_keys_only_witness :
  List.Forall (fun tags : gmap string string => tags !! "application" = None)
    (tag_sets
       (snd (process_view sample_resolve (settings_of beachshirts)
               (MiddlewareEnabled
                  (enabled_attrs sample_constants sample_reporter beachshirts
                     sample_tracing))
               make_request_started make_view 15 26))
     ++ tag_sets
          (snd (process_response sample_constants sample_resolve
                  sample_unmatched
                  (MiddlewareEnabled
                     (enabled_attrs sample_constants sample_reporter
                        beachshirts sample_tracing))
                  make_request_started {| status_code := 503 |}
                  (Some ActiveSpan) 15 26)))%list.
Proof.
  apply (hooks_tag_sets_use_six_keys_only sample_constants sample_resolve
           sample_unmatched
           (settings_of beachshirts) sample_reporter beachshirts
           sample_tracing make_request_started make_view
           {| status_code := 503 |} (Some ActiveSpan) 15 26 "application").
  cbn [tag_keys In]. intros H.
  repeat (destruct H as [H|H]; [discriminate H|]). exact H.
Defined.

(** ** The total inflight gauge over many requests *)

Lemma gauge_change_app us1 us2 key tags :
  gauge_change (us1 ++ us2) key tags
  = gauge_change us1 key tags + gauge_change us2 key tags.
Proof.
  induction us1 as [|[[k tg] v] us1 IH]; [reflexivity|].
  cbn [app gauge_change]. rewrite IH. lia.
Qed.

(** X14: over any sequence of hook calls of an enabled middleware, for any
    requests and in any order, the gauge [total_requests.inflight] moves
    by the number of [process_view] calls minus the number of
    [process_response] calls that have a span and a path matching a
    route: a request that is never completed, and one whose
    [process_response] raises, each leave it one higher. *)
Theorem total_inflight_gauge_counts_open_requests
    (K : Constants) (resolve : string -> ResolverMatch)
    (unmatched : string -> bool)
    (settings : gmap string conf_value)
    (r : WavefrontReporter) (t : ApplicationTags) (tr : DjangoTracing)
    (hs : list hook_call) (registry : TaggedRegistry) :
  let self := MiddlewareEnabled (enabled_attrs K r t tr) in
  let total_tags :=
    get_tags_map
      (Some (Py.or_else (cluster t) (NULL_TAG_VAL K)))
      (Some (Py.or_else (service t) (NULL_TAG_VAL K)))
      (Some (Py.or_else (shard t) (NULL_TAG_VAL K)))
      None None None in
  gauge_value
    (run_calls registry (calls_of_hooks K resolve unmatched settings self hs))
    "total_requests.inflight" total_tags
  = gauge_value registry "total_requests.inflight" total_tags
    + Z.of_nat (views hs) - Z.of_nat (instrumented_responses unmatched hs).
Proof.
  intros self total_tags. rewrite gauge_value_run_calls.
  assert (H : gauge_change
                (gauge_updates
                   (calls_of_hooks K resolve unmatched settings self hs))
                "total_requests.inflight" total_tags
              = Z.of_nat (views hs)
                - Z.of_nat (instrumented_responses unmatched hs)); [|lia].
  induction hs as [|h hs IH]; [reflexivity|].
  unfold calls_of_hooks in *. cbn [flat_map].
  rewrite gauge_updates_app, gauge_change_app, IH.
  assert (Hne : forall request tags,
             ((get_metric_name (get_entity_name request) request None
                 ++ ".inflight")%string, tags)
             <> ("total_requests.inflight", total_tags)).
  { intros request tags E. apply (f_equal fst) in E. cbn [fst] in E.
    discriminate E. }
  destruct h as [request view_func timer clock
                |request response span timer clock];
    cbn [calls_of_hook views instrumented_responses]; subst self.
  - rewrite gauge_updates_started. cbn [gauge_change].
    rewrite decide_False by apply Hne.
    rewrite decide_True by reflexivity. lia.
  - raises_or_runs unmatched request span.
    + rewrite gauge_updates_completed by exact Hroute. cbn [gauge_change].
      rewrite decide_False by apply Hne.
      rewrite decide_True by reflexivity. lia.
    + cbn [gauge_updates gauge_change]. lia.
Qed.

(** ** The source tag and the finest scope *)

Lemma get_tags_map_source c s sh m f src :
  get_tags_map c s sh m f src !! "source"
  = if Py.truthy_text src then src else None.
Proof.
  unfold get_tags_map. rewrite !lookup_set_if_truthy.
  case_decide; [|congruence].
  destruct (Py.truthy_text src); [reflexivity|].
  repeat (case_decide; [discriminate|]). apply lookup_empty.
Qed.

(** X16: with a non-empty [WAVEFRONT_PROVIDED_SOURCE], every delta counter
    [process_response] increments carries the tag [source] bound to it,
    and among the cumulative counters exactly
    [response.completed.aggregated_per_service] and
    [response.completed.aggregated_per_application] do; the others carry
    no [source] tag. *)
Theorem delta_counters_carry_the_source_tag
    (K : Constants) (resolve : string -> ResolverMatch)
    (unmatched : string -> bool)
    (r : WavefrontReporter) (t : ApplicationTags) (tr : DjangoTracing)
    (request : HttpRequest) (response : HttpResponse) (span : option Span)
    (timer clock : Z)
    (Hsource : Py.truthy_string (WAVEFRONT_PROVIDED_SOURCE K) = true) :
  let self := MiddlewareEnabled (enabled_attrs K r t tr) in
  let completed :=
    snd (process_response K resolve unmatched self request response span
           timer clock) in
  (forall name tags,
     In (name, tags) (delta_incs completed) ->
     tags !! "source" = Some (WAVEFRONT_PROVIDED_SOURCE K))
  /\ (forall name tags,
        In (name, tags) (counter_incs completed) ->
        (In name ["response.completed.aggregated_per_service";
                  "response.completed.aggregated_per_application"] ->
         tags !! "source" = Some (WAVEFRONT_PROVIDED_SOURCE K))
        /\ (~ In name ["response.completed.aggregated_per_service";
                       "response.completed.aggregated_per_application"] ->
            tags !! "source" = None)).
Proof.
  intros self completed. subst completed self.
  raises_or_runs unmatched request span.
  2: { split; intros name tags []. }
  rewrite (counter_incs_completed K resolve unmatched r t tr request response
             sp timer clock Hroute),
    (delta_incs_completed K resolve unmatched r t tr request response
       sp timer clock Hroute).
  assert (Hs : Py.truthy_text (Some (WAVEFRONT_PROVIDED_SOURCE K)) = true)
    by exact Hsource.
  split; intros name tags Hin.
  - in_cases;
      match goal with
      | H : (_, _) = (_, _) |- _ =>
          apply pair_equal_spec in H; destruct H as [<- <-]
      end;
      rewrite get_tags_map_source, Hs; reflexivity.
  - in_cases;
      match goal with
      | H : (_, _) = (_, _) |- _ =>
          apply pair_equal_spec in H; destruct H as [<- <-]
      end;
      rewrite get_tags_map_source; cbn [Py.truthy_text]; rewrite ?Hsource;
      (split; intros Hn; [|try reflexivity]).
    all: try reflexivity.
    all: try (exfalso; apply Hn; cbn [In]; auto; fail).
    all: exfalso; cbn [In] in Hn;
      repeat match goal with
             | H : _ \/ _ |- _ => destruct H as [H|H]
             | H : False |- _ => destruct H
             end;
      first [ discriminate Hn | names_differ Hn ].
Qed.

Lemma delta_counters_carry_the_source_tag_witness :
  Forall (fun nt : string * gmap string string =>
            snd nt !! "source" = Some "wavefront-provided")
    (delta_incs
       (snd (process_response sample_constants sample_resolve
               sample_unmatched
               (MiddlewareEnabled
                  (enabled_attrs sample_constants sample_reporter beachshirts
                     sample_tracing))
               make_request_started {| status_code := 503 |}
               (Some ActiveSpan) 15 26))).
Proof.
  apply List.Forall_forall. intros [name tags] Hin.
  exact (proj1 (delta_counters_carry_the_source_tag sample_constants
                  sample_resolve sample_unmatched sample_reporter beachshirts
                  sample_tracing make_request_started
                  {| status_code := 503 |} (Some ActiveSpan) 15 26 eq_refl)
           name tags Hin).
Defined.

(** X17: every tag set [process_response] hands to the registry, for a
    gauge, a counter, a delta counter or a histogram, is contained in the
    tag set of the per-shard scope, the one built from cluster, service,
    shard, module, function and source together: each scope is that tag
    set with some keys left out, never with another value. *)
Theorem process_response_tag_sets_project_the_finest
    (K : Constants) (resolve : string -> ResolverMatch)
    (unmatched : string -> bool)
    (r : WavefrontReporter) (t : ApplicationTags) (tr : DjangoTracing)
    (request : HttpRequest) (response : HttpResponse) (span : option Span)
    (timer clock : Z) :
  let self := MiddlewareEnabled (enabled_attrs K r t tr) in
  let completed :=
    snd (process_response K resolve unmatched self request response span
           timer clock) in
  let aggregated_per_shard_map :=
    get_tags_map
      (Some (Py.or_else (cluster t) (NULL_TAG_VAL K)))
      (Some (Py.or_else (service t) (NULL_TAG_VAL K)))
      (Some (Py.or_else (shard t) (NULL_TAG_VAL K)))
      (Some (func_module_ (func (resolve (path_info request)))))
      (Some (func_name_ (func (resolve (path_info request)))))
      (Some (WAVEFRONT_PROVIDED_SOURCE K)) in
  List.Forall (fun tags : gmap string string => tags ⊆ aggregated_per_shard_map)
    (tag_sets completed).
Proof.
  intros self completed aggregated_per_shard_map.
  subst completed self aggregated_per_shard_map.
  raises_or_runs unmatched request span.
  2: { constructor. }
  apply List.Forall_forall. intros tags Hin.
  apply in_tag_sets in Hin.
  rewrite (counter_incs_completed K resolve unmatched r t tr request response
             sp timer clock Hroute),
    (delta_incs_completed K resolve unmatched r t tr request response
       sp timer clock Hroute),
    (gauge_updates_completed K resolve unmatched r t tr request response
       sp timer clock Hroute),
    (histogram_adds_completed K resolve unmatched r t tr request response
       sp timer clock Hroute) in Hin.
  repeat match goal with
         | H : _ \/ _ |- _ => destruct H as [H|H]
         end.
  all: apply in_map_iff in Hin; destruct Hin as (x & <- & Hin).
  all: try (destruct (wf_marks request) as [[? ?]|]).
  all: in_cases; subst x; cbn [fst snd];
    apply get_tags_map_mono;
    first [right; reflexivity | left; reflexivity].
Qed.

(** ** The per-source counters over many requests *)

Lemma counter_incs_app cs1 cs2 :
  counter_incs (cs1 ++ cs2) = (counter_incs cs1 ++ counter_incs cs2)%list.
Proof.
  induction cs1 as [|c cs1 IH]; [reflexivity|].
  destruct c; cbn [app counter_incs]; rewrite ?IH; reflexivity.
Qed.

Lemma increments_of_app incs1 incs2 key tags :
  increments_of (incs1 ++ incs2) key tags
  = increments_of incs1 key tags + increments_of incs2 key tags.
Proof.
  induction incs1 as [|inc incs1 IH]; [reflexivity|].
  cbn [app increments_of]. rewrite IH. lia.
Qed.

(** X15: over any sequence of hook calls of an enabled middleware, the
    cumulative counter [response.completed.aggregated_per_source] rises by
    the number of [process_response] calls that have a span and a path
    matching a route, and [response.errors.aggregated_per_source] by the
    number of those whose status is in [400, 599], whatever the routes
    and the order; [process_view], and a [process_response] that raises,
    move neither. *)
Theorem per_source_counters_count_responses
    (K : Constants) (resolve : string -> ResolverMatch)
    (unmatched : string -> bool)
    (settings : gmap string conf_value)
    (r : WavefrontReporter) (t : ApplicationTags) (tr : DjangoTracing)
    (hs : list hook_call) (registry : TaggedRegistry) :
  let self := MiddlewareEnabled (enabled_attrs K r t tr) in
  let overall_aggregated_per_source_map :=
    get_tags_map
      (Some (Py.or_else (cluster t) (NULL_TAG_VAL K)))
      (Some (Py.or_else (service t) (NULL_TAG_VAL K)))
      (Some (Py.or_else (shard t) (NULL_TAG_VAL K)))
      None None None in
  let after :=
    run_calls registry (calls_of_hooks K resolve unmatched settings self hs) in
  counter_value after "response.completed.aggregated_per_source"
    overall_aggregated_per_source_map
  = counter_value registry "response.completed.aggregated_per_source"
      overall_aggregated_per_source_map
    + Z.of_nat (instrumented_responses unmatched hs)
  /\ counter_value after "response.errors.aggregated_per_source"
       overall_aggregated_per_source_map
     = counter_value registry "response.errors.aggregated_per_source"
         overall_aggregated_per_source_map
       + Z.of_nat (instrumented_error_responses unmatched hs).
Proof.
  intros self tags after. subst after.
  rewrite !counter_value_run_calls.
  assert (H : increments_of
                (counter_incs
                   (calls_of_hooks K resolve unmatched settings self hs))
                "response.completed.aggregated_per_source" tags
              = Z.of_nat (instrumented_responses unmatched hs)
              /\ increments_of
                   (counter_incs
                      (calls_of_hooks K resolve unmatched settings self hs))
                   "response.errors.aggregated_per_source" tags
                 = Z.of_nat (instrumented_error_responses unmatched hs));
    [|destruct H; lia].
  induction hs as [|h hs [IH1 IH2]]; [split; reflexivity|].
  unfold calls_of_hooks in *. cbn [flat_map].
  rewrite counter_incs_app, !increments_of_app, IH1, IH2.
  destruct h as [request view_func timer clock
                |request response span timer clock];
    cbn [calls_of_hook instrumented_responses instrumented_error_responses];
    subst self.
  - pose proof (other_calls_started K resolve settings r t tr request
                  view_func timer clock) as (Hc & _).
    rewrite Hc. cbn [increments_of]. split; lia.
  - pose proof (counter_names_response_nodup K resolve unmatched r t tr
                  request response span timer clock) as Hnd.
    rewrite counter_names_incs in Hnd. revert Hnd.
    raises_or_runs unmatched request span; intros Hnd.
    2: { cbn [counter_incs increments_of andb]. split; lia. }
    cbn [andb]. split.
    + rewrite (increments_of_once _ _ _ Hnd); [lia|].
      rewrite counter_incs_completed by exact Hroute. in_list.
    + fold (is_error_status_code response).
      destruct (is_error_status_code response) eqn:E.
      * rewrite (increments_of_once _ _ _ Hnd); [lia|].
        rewrite counter_incs_completed by exact Hroute. rewrite E. in_list.
      * rewrite increments_of_absent; [lia|].
        rewrite counter_incs_completed by exact Hroute. rewrite E. intros H.
        in_cases;
          match goal with
          | H : (_, _) = (_, _) |- _ =>
              apply (f_equal fst) in H; cbn [fst] in H;
              first [discriminate H | names_differ H]
          end.
Qed.
